(** * errata_tool_release: reconciliation of an Errata Tool release

    A shallow embedding of [library/errata_tool_release.py].  Python
    values are a JSON-shaped inductive type, dictionaries keep their
    insertion order, exceptions are an explicit outcome, and every call
    made through the Errata [client] is recorded in a log next to the
    state of the remote service. *)

From Stdlib Require Import String Ascii List ZArith Bool Lia DecimalString.
Import ListNotations.
Local Open Scope string_scope.
Local Open Scope Z_scope.
Set Warnings "-register-all".

(** ** Python values *)

(** What JSON carries and what the module builds from it.  A [str] is a
    [string] with one [ascii] per character: the text of the model is
    the text whose characters are single bytes, as the names, logins and
    timestamps of the service are.  Numbers are integers. *)
Inductive value : Type :=
| VNone
| VBool (b : bool)
| VInt (n : Z)
| VStr (s : string)
| VList (l : list value)
| VDict (d : list (string * value)).

(** A [dict] with [str] keys, in insertion order. *)
Definition dict : Type := list (string * value).

(** [d.get(k)] as an option; the first binding of [k] is the binding. *)
Fixpoint dget (k : string) (d : dict) : option value :=
  match d with
  | [] => None
  | (k', v) :: d' => if String.eqb k k' then Some v else dget k d'
  end.

(** [d.get(k)]: null for a key that is not there. *)
Definition dict_get (d : dict) (k : string) : value :=
  match dget k d with Some v => v | None => VNone end.


(** [d[k] = v]: an existing key keeps its position, a new key goes last. *)
Fixpoint dset (k : string) (v : value) (d : dict) : dict :=
  match d with
  | [] => [(k, v)]
  | (k', v') :: d' =>
      if String.eqb k k' then (k', v) :: d' else (k', v') :: dset k v d'
  end.

(** The dictionary left by [d.pop(k)]. *)
Definition ddel (k : string) (d : dict) : dict :=
  filter (fun kv => negb (String.eqb k (fst kv))) d.

(** [d.update(other)] for a mapping [other]. *)
Definition dupdate (d other : dict) : dict :=
  fold_left (fun acc kv => dset (fst kv) (snd kv) acc) other d.

(** Python's [==]: [bool] is a subtype of [int], lists compare
    element-wise in order, dictionaries compare as mappings. *)
Fixpoint py_eqb (a b : value) {struct a} : bool :=
  match a, b with
  | VNone, VNone => true
  | VBool x, VBool y => Bool.eqb x y
  | VBool x, VInt y => Z.b2z x =? y
  | VInt x, VBool y => x =? Z.b2z y
  | VInt x, VInt y => x =? y
  | VStr x, VStr y => String.eqb x y
  | VList x, VList y =>
      (fix list_eqb (x y : list value) {struct x} : bool :=
         match x, y with
         | [], [] => true
         | a' :: x', b' :: y' => py_eqb a' b' && list_eqb x' y'
         | _, _ => false
         end) x y
  | VDict x, VDict y =>
      Nat.eqb (length x) (length y) &&
      (fix sub_eqb (x : list (string * value)) {struct x} : bool :=
         match x with
         | [] => true
         | (k, v) :: x' =>
             match dget k y with
             | Some w => py_eqb v w
             | None => false
             end && sub_eqb x'
         end) x
  | _, _ => false
  end.

(** Truth value of an object, as tested by [if x:] and [not x]. *)
Definition truthy (v : value) : bool :=
  match v with
  | VNone => false
  | VBool b => b
  | VInt n => negb (n =? 0)
  | VStr s => negb (String.eqb s "")
  | VList l => match l with [] => false | _ => true end
  | VDict d => match d with [] => false | _ => true end
  end.

Definition is_none (v : value) : bool :=
  match v with VNone => true | _ => false end.

(** ** Exceptions and outcomes *)

Inductive exn : Type :=
| KeyError (k : value)
| IndexError
| TypeError
| ValueError (arg : value)
| HTTPError (url : string) (status : Z)
| UserNotFoundError (login : string)
| ProgramManagerNotFoundError (msg : string).

Inductive outcome (A : Type) : Type :=
| Ok (a : A)
| Raise (e : exn).
Arguments Ok {A} a.
Arguments Raise {A} e.

(** ** Operations on values that may raise *)

(** [v[k]] for a [str] subscript. *)
Definition getitem (v : value) (k : string) : outcome value :=
  match v with
  | VDict d =>
      match dget k d with
      | Some x => Ok x
      | None => Raise (KeyError (VStr k))
      end
  | _ => Raise TypeError
  end.

(** [d[k]] on a dictionary. *)
Definition dict_getitem (d : dict) (k : string) : outcome value :=
  match dget k d with
  | Some x => Ok x
  | None => Raise (KeyError (VStr k))
  end.

Fixpoint chars (s : string) : list value :=
  match s with
  | EmptyString => []
  | String c s' => VStr (String c EmptyString) :: chars s'
  end.

(** The elements produced by iterating over [v]. *)
Definition py_iter (v : value) : outcome (list value) :=
  match v with
  | VList l => Ok l
  | VStr s => Ok (chars s)
  | VDict d => Ok (map (fun kv => VStr (fst kv)) d)
  | _ => Raise TypeError
  end.

(** [len(v)] *)
Definition py_len (v : value) : outcome nat :=
  match v with
  | VList l => Ok (length l)
  | VStr s => Ok (String.length s)
  | VDict d => Ok (length d)
  | _ => Raise TypeError
  end.

(** [v[0]] *)
Definition getitem0 (v : value) : outcome value :=
  match v with
  | VList l => match l with x :: _ => Ok x | [] => Raise IndexError end
  | VStr s =>
      match s with
      | String c _ => Ok (VStr (String c EmptyString))
      | EmptyString => Raise IndexError
      end
  | VDict _ => Raise (KeyError (VInt 0))
  | _ => Raise TypeError
  end.

Fixpoint prefix (n : nat) (s : string) : string :=
  match n, s with
  | S n', String c s' => String c (prefix n' s')
  | _, _ => EmptyString
  end.

(** [v[:10]] *)
Definition slice10 (v : value) : outcome value :=
  match v with
  | VStr s => Ok (VStr (prefix 10 s))
  | VList l => Ok (VList (firstn 10 l))
  | _ => Raise TypeError
  end.

Fixpoint join_strs (sep : string) (l : list value) : outcome string :=
  match l with
  | [] => Ok ""
  | VStr s :: l' =>
      match l' with
      | [] => Ok s
      | _ =>
          match join_strs sep l' with
          | Ok r => Ok (s ++ sep ++ r)%string
          | Raise e => Raise e
          end
      end
  | _ :: _ => Raise TypeError
  end.

(** [sep.join(v)] *)
Definition py_join (sep : string) (v : value) : outcome value :=
  match py_iter v with
  | Ok l =>
      match join_strs sep l with
      | Ok s => Ok (VStr s)
      | Raise e => Raise e
      end
  | Raise e => Raise e
  end.

(** ['%d' % v] *)
Definition format_d (v : value) : outcome string :=
  match v with
  | VInt n => Ok (NilZero.string_of_int (Z.to_int n))
  | VBool b => Ok (NilZero.string_of_int (Z.to_int (Z.b2z b)))
  | _ => Raise TypeError
  end.

(** ** Sequencing computations that may raise *)

Class Monad (m : Type -> Type) : Type := {
  ret : forall {A}, A -> m A;
  bind : forall {A B}, m A -> (A -> m B) -> m B
}.

Declare Scope monad_scope.
Delimit Scope monad_scope with monad.
Notation "x <- c ;; k" := (bind c (fun x => k))
  (at level 61, c at next level, right associativity) : monad_scope.
Notation "c ;; k" := (bind c (fun _ => k))
  (at level 61, right associativity) : monad_scope.
Local Open Scope monad_scope.

#[export] Instance outcome_monad : Monad outcome := {
  ret := fun A a => Ok a;
  bind := fun A B c k => match c with Ok a => k a | Raise e => Raise e end
}.

(** A list comprehension whose element expression may raise. *)
Fixpoint map_outcome {A B} (f : A -> outcome B) (l : list A)
  : outcome (list B) :=
  match l with
  | [] => Ok []
  | a :: l' =>
      b <- f a ;;
      bs <- map_outcome f l' ;;
      ret (b :: bs)
  end.

(** One element of an iterable handed to [dict.update]: a sequence of
    length two, key then value.  A key that is a list or a dict is not
    hashable; a key that is hashable and no [str] is bound by Python
    under that key, which no lookup of the module reads: [dict] has
    [str] keys and does not hold it. *)
Definition update_pair (index : nat) (d : dict) (element : value)
  : outcome dict :=
  match py_iter element with
  | Raise _ => Raise TypeError
  | Ok [k; v] =>
      match k with
      | VStr key => Ok (dset key v d)
      | VList _ | VDict _ => Raise TypeError
      | _ => Ok d
      end
  | Ok l =>
      Raise (ValueError
               (VStr ("dictionary update sequence element #" ++
                      NilZero.string_of_uint (Nat.to_uint index) ++
                      " has length " ++
                      NilZero.string_of_uint (Nat.to_uint (length l)) ++
                      "; 2 is required")))
  end.

Fixpoint update_pairs (index : nat) (d : dict) (elements : list value)
  : outcome dict :=
  match elements with
  | [] => Ok d
  | element :: rest =>
      d' <- update_pair index d element ;;
      update_pairs (S index) d' rest
  end.

(** [d.update(other)]: a mapping is merged key by key, a list or a
    string is read as an iterable of key/value pairs, anything else is
    not iterable. *)
Definition py_update (d : dict) (other : value) : outcome dict :=
  match other with
  | VDict o => Ok (dupdate d o)
  | VList l => update_pairs 0 d l
  | VStr s => update_pairs 0 d (chars s)
  | _ => Raise TypeError
  end.

(** ** Requests, responses and results *)

Record response : Type := {
  status_code : Z;
  json : value
}.

(** One request made through the client. *)
Inductive call : Type :=
| Get (path : string) (params : dict)
| Post (path : string) (data : value)
| Put (path : string) (data : value).

Definition is_write (c : call) : bool :=
  match c with
  | Get _ _ => false
  | Post _ _ | Put _ _ => true
  end.

(** A release setting that differs: the key, the current and the new value. *)
Definition difference : Type := (string * value * value)%type.

Definition diff_key (d : difference) : string := fst (fst d).
Definition diff_old (d : difference) : value := snd (fst d).
Definition diff_new (d : difference) : value := snd d.

(** What [ensure_release] hands back to Ansible. *)
Record result : Type := {
  changed : bool;
  stdout_lines : list string;
  diff : option value
}.

(** ** The remote service and the library around the module *)

(** The Errata Tool behind the [client] argument: its state, the answer
    to a GET (which leaves the state alone), and the answer and next
    state of a POST and of a PUT. *)
Class Client : Type := {
  server : Type;
  http_get : server -> string -> dict -> response;
  http_post : server -> string -> value -> response * server;
  http_put : server -> string -> value -> response * server
}.

(** What the module takes from Python and from [common_errata_tool]
    without depending on how it is written. *)
Class Library : Type := {
  (** [repr] of a value that is not a [str] *)
  py_repr : value -> string;
  (** the table read off the workflow rules page by the scraper *)
  parse_rules : value -> list (string * Z);
  (** the wording of one change line *)
  describe_change : difference -> string;
  (** [task_diff_data], the builder of the before/after report, by its
      signature: before, after, item_name, item_type, keys_to_copy,
      keys_to_omit *)
  task_diff_data :
    option dict -> dict -> value -> string -> list string -> list string ->
    value
}.

(** ** The module *)

Section Release.

Context {client : Client} {lib : Library}.

(** ['%s' % v]: a [str] is printed as it is, anything else as its [repr]. *)
Definition py_str (v : value) : string :=
  match v with
  | VStr s => s
  | _ => py_repr v
  end.

(** One run of a computation: what it returned or raised, the state it
    left the service in, and the requests it issued, in order. *)
Record run (A : Type) : Type := {
  out : outcome A;
  remote : server;
  calls : list call
}.
Arguments out {A} r.
Arguments remote {A} r.
Arguments calls {A} r.

(** A computation that talks to the service and returns or raises. *)
Definition M (A : Type) : Type := server -> run A.

(** The run of [k] placed after a run that issued [before]. *)
Definition after {A} (before : list call) (r : run A) : run A :=
  {| out := out r; remote := remote r; calls := before ++ calls r |}.

#[export] Instance M_monad : Monad M := {
  ret := fun A a s => {| out := Ok a; remote := s; calls := [] |};
  bind := fun A B c k s =>
    let r := c s in
    match out r with
    | Ok a => after (calls r) (k a (remote r))
    | Raise e => {| out := Raise e; remote := remote r; calls := calls r |}
    end
}.

Definition raise {A} (e : exn) : M A :=
  fun s => {| out := Raise e; remote := s; calls := [] |}.

Definition lift {A} (o : outcome A) : M A :=
  fun s => {| out := o; remote := s; calls := [] |}.

(** [try: c / except: h]; [h] answers [None] for an exception it does
    not catch. *)
Definition try_except {A} (c : M A) (h : exn -> option (M A)) : M A :=
  fun s =>
    let r := c s in
    match out r with
    | Ok _ => r
    | Raise e =>
        match h e with
        | Some handler => after (calls r) (handler (remote r))
        | None => r
        end
    end.

(** [client.get(path, params=params)] *)
Definition client_get (path : string) (params : dict) : M response :=
  fun s =>
    {| out := Ok (http_get s path params);
       remote := s;
       calls := [Get path params] |}.

(** [client.post(path, json=data)] *)
Definition client_post (path : string) (data : value) : M response :=
  fun s =>
    {| out := Ok (fst (http_post s path data));
       remote := snd (http_post s path data);
       calls := [Post path data] |}.

(** [client.put(path, json=data)] *)
Definition client_put (path : string) (data : value) : M response :=
  fun s =>
    {| out := Ok (fst (http_put s path data));
       remote := snd (http_put s path data);
       calls := [Put path data] |}.

(** A 4xx or 5xx status. *)
Definition http_error (r : response) : bool :=
  (400 <=? status_code r) && (status_code r <? 600).

(** [response.raise_for_status()] of requests: a 4xx or 5xx status raises
    an [HTTPError] that carries the requested URL. *)
Definition raise_for_status (url : string) (r : response) : M unit :=
  if http_error r
  then raise (HTTPError url (status_code r))
  else ret tt.

(** *** module_utils/common_errata_tool *)

(** Modelled from the spec: [common_errata_tool.user_id] is not part of
    the source file.  The user resolver looks a user up by login and
    fails with [UserNotFoundError] when the account is not found; the
    lookup is one GET on the user endpoint of the service (the spec
    names no path) and a failure status is the not-found answer. *)
Definition user_id (login_name : value) : M value :=
  r <- client_get ("api/v1/user/" ++ py_str login_name) [] ;;
  if http_error r
  then raise (UserNotFoundError (py_str login_name))
  else lift (getitem (json r) "id").

Fixpoint enum_lookup (k : string) (t : list (string * Z)) : option Z :=
  match t with
  | [] => None
  | (k', n) :: t' => if String.eqb k k' then Some n else enum_lookup k t'
  end.

(** Modelled from the spec: [common_errata_tool.WorkflowRulesScraper] is
    not part of the source file.  The rule-set resolver maps an enum
    label to an id through a label-to-id table scraped from the service:
    the table is fetched with one GET when it is first indexed. *)
Definition rules_scraper_enum (label : value) : M Z :=
  r <- client_get "workflow_rules" [] ;;
  raise_for_status "workflow_rules" r ;;
  match label with
  | VStr s =>
      match enum_lookup s (parse_rules (json r)) with
      | Some n => ret n
      | None => raise (KeyError label)
      end
  | VList _ | VDict _ => raise TypeError
  | _ => raise (KeyError label)
  end.

(** Modelled from the spec: [common_errata_tool.diff_settings] is not
    part of the source file.  For every desired field, in the order of
    the desired mapping, the desired value is compared with the
    corresponding current value and a Difference (field, old, new) is
    emitted when they are unequal; a field the current state does not
    carry is read as null. *)
Fixpoint diff_settings (settings params : dict) : list difference :=
  match params with
  | [] => []
  | (key, new_value) :: rest =>
      let current_value := dict_get settings key in
      if py_eqb current_value new_value
      then diff_settings settings rest
      else (key, current_value, new_value) :: diff_settings settings rest
  end.

(** Modelled from the spec: [common_errata_tool.describe_changes] is not
    part of the source file.  It builds one human-readable line per
    Difference, in order. *)
Definition describe_changes (differences : list difference) : list string :=
  map describe_change differences.

(** *** get_release *)

(** [release_data['relationships'][field]] *)
Definition relationship (release_data : value) (field : string)
  : outcome value :=
  rels <- getitem release_data "relationships" ;;
  getitem rels field.

(** A relationship flattened to one key of its payload, or to null. *)
Definition flatten (payload : value) (key : string) : outcome value :=
  if truthy payload then getitem payload key else Ok VNone.

(** The body of [get_release] from [release_data = results[0]] on. *)
Definition normalize_release (release_data : value) : outcome dict :=
  id <- getitem release_data "id" ;;
  let release := dset "id" id [] in
  attributes <- getitem release_data "attributes" ;;
  release <- py_update release attributes ;;
  (* product *)
  product <- relationship release_data "product" ;;
  short_name <- flatten product "short_name" ;;
  let release := dset "product" short_name release in
  (* program_manager *)
  program_manager <- relationship release_data "program_manager" ;;
  login_name <- flatten program_manager "login_name" ;;
  let release := dset "program_manager" login_name release in
  (* state_machine_rule_set *)
  rule_set <- relationship release_data "state_machine_rule_set" ;;
  rule_set_name <- flatten rule_set "name" ;;
  let release := dset "state_machine_rule_set" rule_set_name release in
  (* brew_tags *)
  brew_tags <- relationship release_data "brew_tags" ;;
  let release := dset "brew_tags" brew_tags release in
  (* product_versions *)
  product_version_data <- relationship release_data "product_versions" ;;
  pvs <- py_iter product_version_data ;;
  product_versions <- map_outcome (fun pv => getitem pv "name") pvs ;;
  let release := dset "product_versions" (VList product_versions) release in
  (* "is_active" -> "active" *)
  is_active <- dict_getitem release "is_active" ;;
  let release := dset "active" is_active (ddel "is_active" release) in
  (* timestamp -> "YYYY-MM-DD" *)
  ship_date <- dict_getitem release "ship_date" ;;
  if negb (is_none ship_date)
  then
    day <- slice10 ship_date ;;
    ret (dset "ship_date" day release)
  else ret release.

Definition get_release (name : value) : M (option dict) :=
  r <- client_get "api/v1/releases" [("filter[name]", name)] ;;
  raise_for_status "api/v1/releases" r ;;
  let data := json r in
  results <- lift (getitem data "data") ;;
  if negb (truthy results) then ret None
  else
    n <- lift (py_len results) ;;
    if (1 <? n)%nat
    then raise (ValueError
                  (VStr ("multiple " ++ py_str name ++ " releases found")))
    else
      release_data <- lift (getitem0 results) ;;
      release <- lift (normalize_release release_data) ;;
      ret (Some release).

(** *** Id resolvers *)

Definition get_product_id (name : value) : M value :=
  let url := "api/v1/products/" ++ py_str name in
  response <- client_get url [] ;;
  raise_for_status url response ;;
  let data := json response in
  d <- lift (getitem data "data") ;;
  lift (getitem d "id").

Definition product_version_url (name : value) : string :=
  "product_versions/" ++ py_str name ++ ".json".

(** The [for name in names] loop, [ids] being the list built so far. *)
Fixpoint product_version_loop (names : list value) (ids : list value)
  : M (list value) :=
  match names with
  | [] => ret ids
  | name :: rest =>
      response <- client_get (product_version_url name) [] ;;
      raise_for_status (product_version_url name) response ;;
      let data := json response in
      id <- lift (getitem data "id") ;;
      product_version_loop rest (ids ++ [id])%list
  end.

Definition get_product_version_ids (names : value) : M value :=
  l <- lift (py_iter names) ;;
  ids <- product_version_loop l [] ;;
  ret (VList ids).

(** *** api_data *)

Definition api_data (params : dict) : M value :=
  (* release = params.copy(): the caller's dict is left as it is *)
  let release := params in
  (* Update the values for ones that the REST API will accept: *)
  release <-
    match dget "product" release with
    | Some product_name =>
        let release := ddel "product" release in
        if negb (is_none product_name)
        then
          product_id <- get_product_id product_name ;;
          ret (dset "product_id" product_id release)
        else ret release
    | None => ret release
    end ;;
  release <-
    match dget "program_manager" release with
    | Some pm_login_name =>
        let release := ddel "program_manager" release in
        pm_id <-
          try_except (user_id pm_login_name)
            (fun e =>
               match e with
               | UserNotFoundError login =>
                   Some (raise (ProgramManagerNotFoundError login))
               | _ => None
               end) ;;
        ret (dset "program_manager_id" pm_id release)
    | None => ret release
    end ;;
  (* "active" -> "isactive" *)
  let release :=
    match dget "active" release with
    | Some active => dset "isactive" active (ddel "active" release)
    | None => release
    end in
  (* "supports_component_acl" -> "disable_acl" *)
  let release :=
    match dget "supports_component_acl" release with
    | Some supports_component_acl =>
        dset "disable_acl" (VBool (negb (truthy supports_component_acl)))
          (ddel "supports_component_acl" release)
    | None => release
    end in
  (* "product_versions" -> "product_version_ids" *)
  release <-
    match dget "product_versions" release with
    | Some product_versions =>
        let release := ddel "product_versions" release in
        product_version_ids <- get_product_version_ids product_versions ;;
        ret (dset "product_version_ids" product_version_ids release)
    | None => ret release
    end ;;
  (* "state_machine_rule_set" -> "state_machine_rule_set_id" *)
  release <-
    match dget "state_machine_rule_set" release with
    | Some state_machine_rule_set =>
        let release := ddel "state_machine_rule_set" release in
        if truthy state_machine_rule_set
        then
          rule_set_id <- rules_scraper_enum state_machine_rule_set ;;
          ret (dset "state_machine_rule_set_id" (VInt rule_set_id) release)
        else ret (dset "state_machine_rule_set_id" VNone release)
    | None => ret release
    end ;;
  (* "blocker_flags" list -> str *)
  release <-
    match dget "blocker_flags" release with
    | Some blocker_flags =>
        joined <- lift (py_join "," blocker_flags) ;;
        ret (dset "blocker_flags" joined release)
    | None => ret release
    end ;;
  let data := [("release", VDict release)] in
  let data :=
    match dget "type" params with
    | Some type => dset "type" type data
    | None => data
    end in
  ret (VDict data).

(** *** create_release, edit_release *)

Definition create_release (params : dict) : M unit :=
  data <- api_data params ;;
  response <- client_post "api/v1/releases" data ;;
  if negb (status_code response =? 201)
  then raise (ValueError (json response))
  else ret tt.

(** The params-like dict [edit_release] builds from the differences. *)
Definition params_of_differences (differences : list difference) : dict :=
  fold_left (fun params d => dset (diff_key d) (diff_new d) params)
    differences [].

Definition edit_release (release_id : value) (differences : list difference)
  : M unit :=
  let params := params_of_differences differences in
  data <- api_data params ;;
  id <- lift (format_d release_id) ;;
  response <- client_put ("api/v1/releases/" ++ id) data ;;
  if negb (status_code response =? 200)
  then raise (ValueError (json response))
  else ret tt.

(** *** prepare_diff_data, ensure_release *)

Definition prepare_diff_data (before : option dict) (after : dict)
  : outcome value :=
  item_name <- dict_getitem after "name" ;;
  ret (task_diff_data before after item_name "release"
         ["pelc_product_version_name"; "state_machine_rule_set";
          "zstream_target_release"]
         ["is_async"; "is_deferred"]).

(** [{param: val for param, val in params.items() if val is not None}] *)
Definition non_null (params : dict) : dict :=
  filter (fun kv => negb (is_none (snd kv))) params.

(** Lines 370-375: null-valued params are dropped, then an empty-string
    [state_machine_rule_set] becomes null. *)
Definition desired_params (params : dict) : dict :=
  let params := non_null params in
  if py_eqb (dict_get params "state_machine_rule_set") (VStr "")
  then dset "state_machine_rule_set" VNone params
  else params.

(** Lines 395-399: [product_versions] is appended as an unchanged
    setting when no difference carries it. *)
Definition with_product_versions (params : dict)
  (differences : list difference) : outcome (list difference) :=
  let keys := map diff_key differences in
  if negb (existsb (String.eqb "product_versions") keys)
  then
    pv <- dict_getitem params "product_versions" ;;
    ret (differences ++ [("product_versions", pv, pv)])%list
  else ret differences.

(** [not release] *)
Definition release_missing (release : option dict) : bool :=
  match release with
  | None => true
  | Some [] => true
  | Some (_ :: _) => false
  end.

Definition ensure_release (params : dict) (check_mode : bool) : M result :=
  let result := {| changed := false; stdout_lines := []; diff := None |} in
  let params := desired_params params in
  name <- lift (dict_getitem params "name") ;;
  release <- get_release name ;;
  if release_missing release
  then
    d <- lift (prepare_diff_data release params) ;;
    let result :=
      {| changed := true;
         stdout_lines := ["created " ++ py_str name];
         diff := Some d |} in
    (if negb check_mode then create_release params else ret tt) ;;
    ret result
  else
    let release := match release with Some r => r | None => [] end in
    let differences := diff_settings release params in
    match differences with
    | [] => ret result
    | _ :: _ =>
        let changes := describe_changes differences in
        d <- lift (prepare_diff_data (Some release) params) ;;
        let result :=
          {| changed := true;
             stdout_lines := (stdout_lines result ++ changes)%list;
             diff := Some d |} in
        (if negb check_mode
         then
           (* CLOUDWF-6: we must send product_version_ids in every request *)
           differences <- lift (with_product_versions params differences) ;;
           release_id <- lift (dict_getitem release "id") ;;
           edit_release release_id differences
         else ret tt) ;;
        ret result
    end.

(** ** Observations on a run *)

(** The POST and PUT requests among the requests of a run. *)
Definition writes {A} (r : run A) : list call :=
  filter is_write (calls r).

(** A computation that only reads: it issues no POST or PUT and leaves
    the service as it found it. *)
Definition reads_only {A} (c : M A) : Prop :=
  forall s, remote (c s) = s /\ writes (c s) = [].

(** The list query of [get_release]. *)
Definition releases_query (name : value) : call :=
  Get "api/v1/releases" [("filter[name]", name)].

(** The request that looks product version [name] up. *)
Definition lookup_call (name : value) : call :=
  Get (product_version_url name) [].

(** The lookup of product version [name] on [s] answers with [id]. *)
Definition resolves (s : server) (name id : value) : Prop :=
  let r := http_get s (product_version_url name) [] in
  http_error r = false /\ getitem (json r) "id" = Ok id.

(** The normalizer turns the list relationship [field] of [release_data]
    into the list of the [name] of each of its elements, in order. *)
Definition flattens_to_names (field : string) (release_data : value)
  : Prop :=
  forall release elements,
    normalize_release release_data = Ok release ->
    relationship release_data field = Ok (VList elements) ->
    exists names,
      Forall2 (fun element name => getitem element "name" = Ok name)
        elements names /\
      dget field release = Some (VList names).


End Release.

Arguments out {client A} r.
Arguments remote {client A} r.
Arguments calls {client A} r.

(** ** A small service for concrete runs *)

Module Demo.

(** The service answers a GET from a table of paths; an unknown path is
    a 404.  A POST is acknowledged with 201 and a PUT with 200. *)
Fixpoint answer (path : string) (t : list (string * response)) : response :=
  match t with
  | [] => {| status_code := 404; json := VNone |}
  | (p, r) :: t' => if String.eqb path p then r else answer path t'
  end.

#[export] Instance demo_client : Client := {
  server := list (string * response);
  http_get := fun s path _ => answer path s;
  http_post := fun s _ _ => ({| status_code := 201; json := VNone |}, s);
  http_put := fun s _ _ => ({| status_code := 200; json := VNone |}, s)
}.

Definition rule_id (kv : string * value) : string * Z :=
  match snd kv with
  | VInt n => (fst kv, n)
  | _ => (fst kv, 0)
  end.

#[export] Instance demo_lib : Library := {
  py_repr := fun _ => "<value>";
  parse_rules := fun v =>
    match v with
    | VDict d => map rule_id d
    | _ => []
    end;
  describe_change := fun d => "changing " ++ diff_key d;
  task_diff_data := fun before after _ _ _ _ =>
    VDict [("before", match before with Some b => VDict b | None => VNone end);
           ("after", VDict after)]
}.

Definition ok (body : value) : response :=
  {| status_code := 200; json := body |}.

(** The release rhceph-4.0 as the server lists it. *)
Definition raw_release : value :=
  VDict
    [("id", VInt 1017);
     ("type", VStr "releases");
     ("attributes",
       VDict [("name", VStr "rhceph-4.0");
              ("description", VStr "Red Hat Ceph Storage 4.0");
              ("type", VStr "QuarterlyUpdate");
              ("is_active", VBool true);
              ("enabled", VBool true);
              ("ship_date", VStr "2020-01-31T00:00:00Z")]);
     ("relationships",
       VDict [("product", VDict [("id", VInt 104);
                                 ("short_name", VStr "RHCEPH")]);
              ("program_manager", VNone);
              ("state_machine_rule_set",
                VDict [("id", VInt 2); ("name", VStr "Unrestricted")]);
              ("brew_tags", VList [VStr "ceph-4.0-rhel-8-candidate"]);
              ("product_versions",
                VList [VDict [("id", VInt 929);
                              ("name", VStr "RHCEPH-4.0-RHEL-8")];
                       VDict [("id", VInt 930);
                              ("name", VStr "RHEL-7-RHCEPH-4.0")]])])].

Definition releases (l : list value) : string * response :=
  ("api/v1/releases", ok (VDict [("data", VList l)])).

Definition product_version (name : string) (id : Z) : string * response :=
  ("product_versions/" ++ name ++ ".json", ok (VDict [("id", VInt id)])).

(** A service that knows the release and its two product versions. *)
Definition errata : list (string * response) :=
  [releases [raw_release];
   product_version "RHCEPH-4.0-RHEL-8" 929;
   product_version "RHEL-7-RHCEPH-4.0" 930].

(** A service that lists the release twice under its name. *)
Definition doubled : list (string * response) :=
  [releases [raw_release; raw_release]].

(** A service without the release. *)
Definition empty_errata : list (string * response) :=
  [releases [];
   product_version "RHCEPH-4.0-RHEL-8" 929].

(** Scenario A of the specification. *)
Definition scenario_a : dict :=
  [("name", VStr "rhceph-4.0");
   ("type", VStr "QuarterlyUpdate");
   ("product_versions", VList [VStr "RHCEPH-4.0-RHEL-8"])].

(** The release as it stands on [errata]. *)
Definition standing : dict :=
  [("product", VNone);
   ("name", VStr "rhceph-4.0");
   ("description", VStr "Red Hat Ceph Storage 4.0");
   ("type", VStr "QuarterlyUpdate");
   ("product_versions",
     VList [VStr "RHCEPH-4.0-RHEL-8"; VStr "RHEL-7-RHCEPH-4.0"]);
   ("enabled", VBool true);
   ("active", VBool true);
   ("program_manager", VNone);
   ("ship_date", VStr "2020-01-31");
   ("state_machine_rule_set", VNone);
   ("brew_tags", VList [VStr "ceph-4.0-rhel-8-candidate"])].

(** Scenario C: the same, with [active] turned off. *)
Definition scenario_c : dict :=
  dset "active" (VBool false) standing.

(** Scenario D: a program manager the service does not know. *)
Definition scenario_d : dict :=
  dset "program_manager" (VStr "ghost@redhat.com") standing.

(** The same release with an explicit request to unset its rule set. *)
Definition unset_rule_set : dict :=
  dset "state_machine_rule_set" (VStr "") standing.

(** The release of [errata], normalized. *)
Definition listed : dict :=
  Eval vm_compute in
    match normalize_release raw_release with
    | Ok release => release
    | Raise _ => []
    end.

(** What [ensure_release] reports for scenario C. *)
Definition report_c : result :=
  Eval vm_compute in
    match out (ensure_release scenario_c true errata) with
    | Ok r => r
    | Raise _ => {| changed := false; stdout_lines := []; diff := None |}
    end.

(** The payload of the PUT of scenario C. *)
Definition payload_c : value :=
  VDict [("release",
           VDict [("isactive", VBool false);
                  ("product_version_ids", VList [VInt 929; VInt 930])])].

(** A brew tag sent as an object with a name. *)
Definition candidate_tag : value :=
  VDict [("id", VInt 31); ("name", VStr "ceph-4.0-rhel-8-candidate")].

(** A release whose brew tags are objects. *)
Definition tagged_release : value :=
  VDict
    [("id", VInt 1018);
     ("attributes",
       VDict [("name", VStr "rhceph-4.1");
              ("is_active", VBool true);
              ("ship_date", VNone)]);
     ("relationships",
       VDict [("product", VNone);
              ("program_manager", VNone);
              ("state_machine_rule_set", VNone);
              ("brew_tags", VList [candidate_tag]);
              ("product_versions", VList [])])].

End Demo.


(** ** The module entry point *)

(** How a run of the module ends: [module.exit_json] with the result or
    [module.fail_json(msg=msg, changed=changed, rc=rc)]. *)
Inductive exit : Type :=
| exit_json (r : result)
| fail_json (msg : string) (changed : bool) (rc : Z).

(** [common_errata_tool.get_user(client, login_name, fail_if_not_found)],
    which is not part of the source file: any computation over the
    client. *)
Class Users {client : Client} : Type := {
  get_user : value -> bool -> M value
}.

Section Run_module.

Context {client : Client} {lib : Library} {users : Users}.

(** ['program_manager %s account not found' % e] *)
Definition account_not_found (e : string) : string :=
  "program_manager " ++ e ++ " account not found".

(** [run_module] from [module.check_mode] and [module.params] on: the
    arguments are the params and the check mode [AnsibleModule] parsed,
    and [strict_user_check_mode] is what
    [boolean(os.getenv('ANSIBLE_STRICT_USER_CHECK_MODE', False))] gives
    in the environment of the process, a truth value or the exception of
    [boolean].  [fail_json] ends the module. *)
Definition run_module (params : dict) (check_mode : bool)
  (strict_user_check_mode : outcome bool) : M exit :=
  ensured <-
    try_except
      (result <- ensure_release params check_mode ;; ret (inl result))
      (fun e =>
         match e with
         | ProgramManagerNotFoundError e =>
             Some (ret (inr (fail_json (account_not_found e) false 1)))
         | _ => None
         end) ;;
  match ensured with
  | inr failure => ret failure
  | inl result =>
      strict <-
        (if check_mode && changed result
         then
           program_manager <- lift (dict_getitem params "program_manager") ;;
           if truthy program_manager
           then lift strict_user_check_mode
           else ret false
         else ret false) ;;
      if strict
      then
        program_manager <- lift (dict_getitem params "program_manager") ;;
        checked <-
          try_except
            (_ <- get_user program_manager true ;; ret None)
            (fun e =>
               match e with
               | UserNotFoundError e =>
                   Some (ret (Some (fail_json (account_not_found e) false 1)))
               | _ => None
               end) ;;
        match checked with
        | Some failure => ret failure
        | None => ret (exit_json result)
        end
      else ret (exit_json result)
  end.

End Run_module.

(** ** More observations *)

(** Every key outside [keys] is bound in [d'] as it is in [d]. *)
Definition same_outside (keys : list string) (d d' : dict) : Prop :=
  forall k, ~ In k keys -> dget k d' = dget k d.

(** The names [api_data] takes off the params. *)
Definition canonical_names : list string :=
  ["product"; "program_manager"; "active"; "supports_component_acl";
   "product_versions"; "state_machine_rule_set"].

(** The names [api_data] takes off or puts on the wire. *)
Definition translated_names : list string :=
  ["product"; "product_id"; "program_manager"; "program_manager_id";
   "active"; "isactive"; "supports_component_acl"; "disable_acl";
   "product_versions"; "product_version_ids";
   "state_machine_rule_set"; "state_machine_rule_set_id";
   "blocker_flags"].

(** The names [get_release] sets by itself, next to the attributes. *)
Definition normalized_names : list string :=
  ["product"; "program_manager"; "state_machine_rule_set"; "brew_tags";
   "product_versions"; "is_active"; "active"; "ship_date"].

(** How [run_module] ends when it goes from [ensure_release] straight to
    its exit: the result goes to [exit_json], a
    [ProgramManagerNotFoundError] to [fail_json], any other exception
    is not caught. *)
Definition exit_of (o : outcome result) : outcome exit :=
  match o with
  | Ok r => Ok (exit_json r)
  | Raise (ProgramManagerNotFoundError e) =>
      Ok (fail_json (account_not_found e) false 1)
  | Raise e => Raise e
  end.

(** The exceptions of Python and of requests, as opposed to the two
    user errors of [common_errata_tool]. *)
Definition plain_error (e : exn) : Prop :=
  match e with
  | UserNotFoundError _ | ProgramManagerNotFoundError _ => False
  | _ => True
  end.


(** The requests of a run that are no write calls. *)
Definition read_calls {client : Client} {A} (r : run A) : list call :=
  filter (fun c => negb (is_write c)) (calls r).

(** On [params] and [s], [check_mode] decides nothing but the write
    calls: with and without it the run ends the same way and makes the
    same read requests. *)
Definition check_mode_gates_writes_only {client : Client} {lib : Library}
  (params : dict) (s : server) : Prop :=
  out (ensure_release params true s) = out (ensure_release params false s) /\
  read_calls (ensure_release params true s) =
  read_calls (ensure_release params false s).

(** The strings in a list of values. *)
Definition strs (l : list string) : value := VList (map VStr l).

(** ** More concrete cases *)

Module Cases.

Import Demo.

(** The attributes of [raw_release]. *)
Definition attributes : dict :=
  [("name", VStr "rhceph-4.0");
   ("description", VStr "Red Hat Ceph Storage 4.0");
   ("type", VStr "QuarterlyUpdate");
   ("is_active", VBool true);
   ("enabled", VBool true);
   ("ship_date", VStr "2020-01-31T00:00:00Z")].

(** A service that also knows the product and one user. *)
Definition store : list (string * response) :=
  [releases [raw_release];
   product_version "RHCEPH-4.0-RHEL-8" 929;
   product_version "RHEL-7-RHCEPH-4.0" 930;
   ("api/v1/products/RHCEPH", ok (VDict [("data", VDict [("id", VInt 104)])]));
   ("api/v1/user/pm@redhat.com", ok (VDict [("id", VInt 7)]))].

(** The user lookup of the concrete runs: one GET, a failure status is
    the user that is not found. *)
#[export] Instance demo_users : Users := {
  get_user := fun login_name _ =>
    (r <- client_get ("api/v1/user/" ++ py_str login_name) [] ;;
     if http_error r
     then raise (UserNotFoundError (py_str login_name))
     else ret (json r))%monad
}.

(** A service that answers the list query with a null [data]. *)
Definition blank : list (string * response) :=
  [("api/v1/releases", ok (VDict [("data", VNone)]))].

(** The two differences of scenario C as [edit_release] gets them. *)
Definition differences_c : list difference :=
  [("active", VBool true, VBool false);
   ("product_versions",
     VList [VStr "RHCEPH-4.0-RHEL-8"; VStr "RHEL-7-RHCEPH-4.0"],
     VList [VStr "RHCEPH-4.0-RHEL-8"; VStr "RHEL-7-RHCEPH-4.0"])].

(** Params that use every translation of [api_data]. *)
Definition full_params : dict :=
  [("product", VStr "RHCEPH");
   ("name", VStr "rhceph-4.0");
   ("description", VStr "Red Hat Ceph Storage 4.0");
   ("type", VStr "QuarterlyUpdate");
   ("product_versions",
     VList [VStr "RHEL-7-RHCEPH-4.0"; VStr "RHCEPH-4.0-RHEL-8"]);
   ("active", VBool true);
   ("program_manager", VStr "pm@redhat.com");
   ("blocker_flags", VList [VStr "ceph-4.0"; VStr "devel_ack"]);
   ("supports_component_acl", VBool true);
   ("state_machine_rule_set", VStr "")].

(** What [api_data] makes of them on [store]. *)
Definition wire : value :=
  Eval vm_compute in
    match out (api_data full_params store) with
    | Ok data => data
    | Raise _ => VNone
    end.

(** The release mapping inside [wire]. *)
Definition wire_release : dict :=
  Eval vm_compute in
    match getitem wire "release" with
    | Ok (VDict release) => release
    | _ => []
    end.

(** Scenario A on the wire. *)
Definition wire_a : value :=
  VDict [("release",
           VDict [("name", VStr "rhceph-4.0");
                  ("type", VStr "QuarterlyUpdate");
                  ("product_version_ids", VList [VInt 929])]);
         ("type", VStr "QuarterlyUpdate")].

(** The report of scenario A. *)
Definition report_a : result :=
  {| changed := true;
     stdout_lines := ["created rhceph-4.0"];
     diff := Some (VDict [("before", VNone); ("after", VDict scenario_a)]) |}.

(** What the preview of scenario D reports. *)
Definition report_d : result :=
  Eval vm_compute in
    match out (ensure_release scenario_d true errata) with
    | Ok r => r
    | Raise _ => {| changed := false; stdout_lines := []; diff := None |}
    end.

(** Scenario C without [product_versions] among the params. *)
Definition scenario_c_bare : dict :=
  [("name", VStr "rhceph-4.0"); ("active", VBool false)].

(** Scenario C with a program manager the service knows. *)
Definition scenario_c_managed : dict :=
  dset "program_manager" (VStr "pm@redhat.com") scenario_c.

(** What [ensure_release] reports for it. *)
Definition report_managed : result :=
  Eval vm_compute in
    match out (ensure_release scenario_c_managed true store) with
    | Ok r => r
    | Raise _ => {| changed := false; stdout_lines := []; diff := None |}
    end.

End Cases.

(** ** Properties *)

Section Properties.

Context {client : Client} {lib : Library}.

#[local] Arguments bind : simpl never.
#[local] Arguments ret : simpl never.

(** *** Dictionaries *)

Lemma dget_dset_same (k : string) (v : value) (d : dict) :
  dget k (dset k v d) = Some v.
Proof.
  induction d as [|[k' v'] d IH]; simpl.
  - now rewrite String.eqb_refl.
  - destruct (String.eqb k k') eqn:E; simpl; rewrite E; auto.
Qed.

Lemma dget_dset_other (k k' : string) (v : value) (d : dict) :
  k <> k' -> dget k (dset k' v d) = dget k d.
Proof.
  intros Hk. induction d as [|[k0 v0] d IH]; simpl.
  - apply String.eqb_neq in Hk. now rewrite Hk.
  - destruct (String.eqb k' k0) eqn:E; simpl.
    + apply String.eqb_eq in E. subst k0.
      apply String.eqb_neq in Hk. now rewrite Hk.
    + now rewrite IH.
Qed.

Lemma dget_ddel_other (k k' : string) (d : dict) :
  k <> k' -> dget k (ddel k' d) = dget k d.
Proof.
  intros Hk. induction d as [|[k0 v0] d IH]; simpl; auto.
  destruct (String.eqb k' k0) eqn:E; simpl.
  - apply String.eqb_eq in E. subst k0.
    apply String.eqb_neq in Hk. now rewrite Hk.
  - now rewrite IH.
Qed.

Lemma dset_not_nil (k : string) (v : value) (d : dict) : dset k v d <> [].
Proof.
  destruct d as [|[k' v'] d]; simpl; [discriminate|].
  destruct (String.eqb k k'); discriminate.
Qed.




(** *** Runs *)

Lemma writes_after {A} (l : list call) (r : run A) :
  writes (after l r) = (filter is_write l ++ writes r)%list.
Proof. unfold writes, after. simpl. apply filter_app. Qed.

Lemma run_bind {A B} (c : M A) (k : A -> M B) (s : server) :
  bind c k s =
  match out (c s) with
  | Ok a => after (calls (c s)) (k a (remote (c s)))
  | Raise e =>
      {| out := Raise e; remote := remote (c s); calls := calls (c s) |}
  end.
Proof. reflexivity. Qed.

Lemma reads_only_ret {A} (a : A) : reads_only (ret a : M A).
Proof. intros s. split; reflexivity. Qed.

Lemma reads_only_raise {A} (e : exn) : reads_only (raise e : M A).
Proof. intros s. split; reflexivity. Qed.

Lemma reads_only_lift {A} (o : outcome A) : reads_only (lift o).
Proof. intros s. split; reflexivity. Qed.

Lemma reads_only_client_get (path : string) (params : dict) :
  reads_only (client_get path params).
Proof. intros s. split; reflexivity. Qed.

Lemma reads_only_bind {A B} (c : M A) (k : A -> M B) :
  reads_only c -> (forall a, reads_only (k a)) -> reads_only (bind c k).
Proof.
  intros Hc Hk s. rewrite run_bind.
  destruct (Hc s) as [Hr Hw].
  destruct (out (c s)) as [a|e].
  - destruct (Hk a (remote (c s))) as [Hr' Hw'].
    rewrite writes_after. fold (writes (c s)). rewrite Hw, Hw'.
    split; [simpl; congruence | reflexivity].
  - split; [exact Hr | exact Hw].
Qed.

Lemma reads_only_try {A} (c : M A) (h : exn -> option (M A)) :
  reads_only c ->
  (forall e handler, h e = Some handler -> reads_only handler) ->
  reads_only (try_except c h).
Proof.
  intros Hc Hh s. unfold try_except.
  destruct (Hc s) as [Hr Hw].
  destruct (out (c s)) as [a|e]; [split; assumption|].
  destruct (h e) as [handler|] eqn:E; [|split; assumption].
  destruct (Hh e handler E (remote (c s))) as [Hr' Hw'].
  rewrite writes_after. fold (writes (c s)). rewrite Hw, Hw'.
  split; [simpl; congruence | reflexivity].
Qed.

Lemma reads_only_raise_for_status (url : string) (r : response) :
  reads_only (raise_for_status url r).
Proof.
  unfold raise_for_status.
  destruct (http_error r).
  - apply reads_only_raise.
  - apply reads_only_ret.
Qed.

Create HintDb reads.

#[local] Hint Resolve reads_only_ret reads_only_raise reads_only_lift
  reads_only_client_get reads_only_raise_for_status : reads.

Ltac reads :=
  repeat first
    [ solve [auto with reads]
    | apply reads_only_bind; [|intro]
    | apply reads_only_try; [|intros ? ? ?]
    | match goal with
      | |- reads_only (match ?x with _ => _ end) => destruct x
      | |- reads_only (if ?x then _ else _) => destruct x
      end ].

Lemma reads_only_user_id (login : value) : reads_only (user_id login).
Proof. unfold user_id. reads. Qed.

Lemma reads_only_rules_scraper_enum (label : value) :
  reads_only (rules_scraper_enum label).
Proof. unfold rules_scraper_enum. reads. Qed.

Lemma reads_only_get_product_id (name : value) :
  reads_only (get_product_id name).
Proof. unfold get_product_id. reads. Qed.

Lemma reads_only_product_version_loop (names ids : list value) :
  reads_only (product_version_loop names ids).
Proof.
  revert ids. induction names as [|name rest IH]; intros ids; simpl.
  - apply reads_only_ret.
  - reads.
Qed.

Lemma reads_only_get_product_version_ids (names : value) :
  reads_only (get_product_version_ids names).
Proof.
  unfold get_product_version_ids. reads.
  apply reads_only_product_version_loop.
Qed.

#[local] Hint Resolve reads_only_user_id reads_only_rules_scraper_enum
  reads_only_get_product_id reads_only_get_product_version_ids : reads.

Lemma reads_only_api_data (params : dict) : reads_only (api_data params).
Proof.
  unfold api_data. reads.
  match goal with
  | H : match ?e with _ => _ end = Some _ |- _ =>
      destruct e; inversion H; apply reads_only_raise
  end.
Qed.

(** Equations for running one step of a computation. *)

Lemma after_nil {A} (r : run A) : after [] r = r.
Proof. now destruct r. Qed.

Lemma after_after {A} (l l' : list call) (r : run A) :
  after l (after l' r) = after (l ++ l') r.
Proof. unfold after. simpl. now rewrite app_assoc. Qed.

Lemma bind_ret {A B} (a : A) (k : A -> M B) (s : server) :
  bind (ret a) k s = k a s.
Proof. rewrite run_bind. apply after_nil. Qed.

Lemma bind_lift {A B} (o : outcome A) (k : A -> M B) (s : server) :
  bind (lift o) k s =
  match o with
  | Ok a => k a s
  | Raise e => {| out := Raise e; remote := s; calls := [] |}
  end.
Proof.
  rewrite run_bind. destruct o; simpl; [apply after_nil | reflexivity].
Qed.

Lemma bind_raise {A B} (e : exn) (k : A -> M B) (s : server) :
  bind (raise e) k s = {| out := Raise e; remote := s; calls := [] |}.
Proof. reflexivity. Qed.

Lemma bind_client_get {B} (path : string) (params : dict)
  (k : response -> M B) (s : server) :
  bind (client_get path params) k s =
  after [Get path params] (k (http_get s path params) s).
Proof. reflexivity. Qed.

Lemma bind_raise_for_status {B} (url : string) (r : response)
  (k : unit -> M B) (s : server) :
  bind (raise_for_status url r) k s =
  if http_error r
  then {| out := Raise (HTTPError url (status_code r));
          remote := s; calls := [] |}
  else k tt s.
Proof.
  unfold raise_for_status. destruct (http_error r).
  - apply bind_raise.
  - apply bind_ret.
Qed.

(** *** Version resolver *)

Lemma product_version_loop_resolved (s : server) (names ids : list value) :
  Forall2 (resolves s) names ids ->
  forall acc,
    product_version_loop names acc s =
    {| out := Ok (acc ++ ids)%list;
       remote := s;
       calls := map lookup_call names |}.
Proof.
  induction 1 as [|name id names ids [Hok Hid] _ IH]; intros acc.
  - simpl. now rewrite app_nil_r.
  - cbn [product_version_loop map].
    rewrite bind_client_get, bind_raise_for_status, Hok, bind_lift, Hid, IH.
    unfold after. simpl. now rewrite <- app_assoc.
Qed.

Lemma product_version_loop_unresolved (s : server)
  (found ids : list value) (name : value) (rest : list value) :
  Forall2 (resolves s) found ids ->
  http_error (http_get s (product_version_url name) []) = true ->
  forall acc,
    product_version_loop (found ++ name :: rest) acc s =
    {| out := Raise (HTTPError (product_version_url name)
                       (status_code
                          (http_get s (product_version_url name) [])));
       remote := s;
       calls := map lookup_call (found ++ [name]) |}.
Proof.
  intros Hfound Hbad.
  induction Hfound as [|n id found ids [Hok Hid] _ IH]; intros acc.
  - cbn [app product_version_loop map].
    now rewrite bind_client_get, bind_raise_for_status, Hbad.
  - cbn [app product_version_loop map].
    now rewrite bind_client_get, bind_raise_for_status, Hok, bind_lift, Hid, IH.
Qed.

(** C7.  [get_product_version_ids] issues one lookup per name, in the
    order of the names, and returns the ids in that same order; at the
    first name whose lookup is answered with an error status it raises
    the [HTTPError] of that lookup, whose URL carries the name, after
    the lookups up to and including that name and none beyond, and no
    list of ids is returned. *)
Theorem get_product_version_ids_in_order (s : server) :
  (forall names ids,
     Forall2 (resolves s) names ids ->
     get_product_version_ids (VList names) s =
     {| out := Ok (VList ids);
        remote := s;
        calls := map lookup_call names |})
  /\
  (forall found ids name rest,
     Forall2 (resolves s) found ids ->
     http_error (http_get s (product_version_url name) []) = true ->
     get_product_version_ids (VList (found ++ name :: rest)) s =
     {| out := Raise (HTTPError (product_version_url name)
                        (status_code
                           (http_get s (product_version_url name) [])));
        remote := s;
        calls := map lookup_call (found ++ [name]) |}).
Proof.
  split.
  - intros names ids H. unfold get_product_version_ids.
    rewrite bind_lift. cbn [py_iter]. rewrite run_bind.
    rewrite (product_version_loop_resolved s names ids H).
    unfold after. simpl. now rewrite app_nil_r.
  - intros found ids name rest H Hbad. unfold get_product_version_ids.
    rewrite bind_lift. cbn [py_iter]. rewrite run_bind.
    now rewrite (product_version_loop_unresolved s found ids name rest H Hbad).
Qed.

(** *** Normalizer *)

(** [get_release] is the one list query, whatever it returns. *)
Lemma get_release_run (name : value) (s : server) :
  remote (get_release name s) = s /\
  calls (get_release name s) = [releases_query name].
Proof.
  unfold get_release, releases_query.
  rewrite bind_client_get, bind_raise_for_status.
  destruct (http_error _); [split; reflexivity|].
  rewrite bind_lift.
  destruct (getitem _ "data") as [results|e]; [|split; reflexivity].
  destruct (negb (truthy results)); [split; reflexivity|].
  rewrite bind_lift.
  destruct (py_len results) as [n|e]; [|split; reflexivity].
  destruct (1 <? n)%nat; [split; reflexivity|].
  rewrite bind_lift.
  destruct (getitem0 results) as [release_data|e]; [|split; reflexivity].
  rewrite bind_lift.
  destruct (normalize_release release_data); split; reflexivity.
Qed.

(** C6.  When the list query is answered with a collection of results,
    [get_release] returns [None] for an empty collection, raises
    [ValueError] 'multiple NAME releases found' for a collection of more
    than one element, and returns the normalized resource for a
    collection of exactly one element. *)
Theorem get_release_outcomes (s : server) (name : value)
  (results : list value) :
  http_error (http_get s "api/v1/releases" [("filter[name]", name)]) = false ->
  getitem (json (http_get s "api/v1/releases" [("filter[name]", name)]))
    "data" = Ok (VList results) ->
  get_release name s =
  {| out :=
       match results with
       | [] => Ok None
       | [release_data] =>
           release <- normalize_release release_data ;;
           ret (Some release)
       | _ :: _ :: _ =>
           Raise (ValueError
                    (VStr ("multiple " ++ py_str name ++ " releases found")))
       end;
     remote := s;
     calls := [Get "api/v1/releases" [("filter[name]", name)]] |}.
Proof.
  intros Hok Hdata. unfold get_release.
  rewrite bind_client_get, bind_raise_for_status, Hok, bind_lift, Hdata.
  destruct results as [|release_data [|another rest]].
  - reflexivity.
  - cbn [truthy negb]. rewrite bind_lift. cbn [py_len length Nat.ltb Nat.leb].
    rewrite bind_lift. cbn [getitem0]. rewrite bind_lift.
    destruct (normalize_release release_data); reflexivity.
  - cbn [truthy negb]. rewrite bind_lift. reflexivity.
Qed.

Lemma outcome_bind_ok {A B} (c : outcome A) (k : A -> outcome B) (b : B) :
  bind c k = Ok b -> exists a, c = Ok a /\ k a = Ok b.
Proof. destruct c as [a|e]; [eauto | discriminate]. Qed.

Lemma map_outcome_ok {A B} (f : A -> outcome B) (l : list A) (l' : list B) :
  map_outcome f l = Ok l' -> Forall2 (fun a b => f a = Ok b) l l'.
Proof.
  revert l'. induction l as [|a l IH]; intros l' H; cbn [map_outcome] in H.
  - injection H as <-. constructor.
  - apply outcome_bind_ok in H as (b & Hb & H).
    apply outcome_bind_ok in H as (bs & Hbs & H).
    injection H as <-. constructor; auto.
Qed.

Ltac dget_step :=
  repeat first
    [ rewrite dget_dset_same
    | rewrite dget_dset_other by discriminate
    | rewrite dget_ddel_other by discriminate ].

(** The steps of a normalization that returned. *)
Lemma normalize_release_ok (release_data : value) (release : dict) :
  normalize_release release_data = Ok release ->
  exists pvd pvs names tags,
    relationship release_data "product_versions" = Ok pvd /\
    py_iter pvd = Ok pvs /\
    map_outcome (fun pv => getitem pv "name") pvs = Ok names /\
    relationship release_data "brew_tags" = Ok tags /\
    dget "product_versions" release = Some (VList names) /\
    dget "brew_tags" release = Some tags /\
    release <> [].
Proof.
  unfold normalize_release. intros H.
  apply outcome_bind_ok in H as (id & _ & H).
  apply outcome_bind_ok in H as (attributes & _ & H).
  apply outcome_bind_ok in H as (release0 & _ & H).
  apply outcome_bind_ok in H as (product & _ & H).
  apply outcome_bind_ok in H as (short_name & _ & H).
  apply outcome_bind_ok in H as (program_manager & _ & H).
  apply outcome_bind_ok in H as (login_name & _ & H).
  apply outcome_bind_ok in H as (rule_set & _ & H).
  apply outcome_bind_ok in H as (rule_set_name & _ & H).
  apply outcome_bind_ok in H as (brew_tags & Htags & H).
  apply outcome_bind_ok in H as (pvd & Hpvd & H).
  apply outcome_bind_ok in H as (pvs & Hpvs & H).
  apply outcome_bind_ok in H as (names & Hnames & H).
  apply outcome_bind_ok in H as (is_active & _ & H).
  apply outcome_bind_ok in H as (ship_date & _ & H).
  exists pvd, pvs, names, brew_tags.
  repeat (split; [assumption|]).
  destruct (negb (is_none ship_date)).
  - apply outcome_bind_ok in H as (day & _ & H). injection H as <-.
    dget_step. repeat split; try reflexivity. apply dset_not_nil.
  - injection H as <-.
    dget_step. repeat split; try reflexivity. apply dset_not_nil.
Qed.

(** C8, as the code has it.  Of the two list relationships,
    [product_versions] becomes the list of the [name] of each element of
    the payload, in the order of the payload; [brew_tags] is the payload
    itself, unchanged. *)
Theorem normalize_release_list_relationships (release_data : value) :
  flattens_to_names "product_versions" release_data /\
  (forall release tags,
     normalize_release release_data = Ok release ->
     relationship release_data "brew_tags" = Ok tags ->
     dget "brew_tags" release = Some tags).
Proof.
  split.
  - intros release pvs H Hpv.
    apply normalize_release_ok in H
      as (pvd & pvs' & names & _ & Hpvd & Hiter & Hnames & _ & Hp & _).
    rewrite Hpv in Hpvd. injection Hpvd as <-.
    cbn [py_iter] in Hiter. injection Hiter as <-.
    exists names. split; [|exact Hp].
    now apply map_outcome_ok.
  - intros release tags H Htags.
    apply normalize_release_ok in H
      as (_ & _ & _ & tags' & _ & _ & _ & Ht & _ & Hb & _).
    rewrite Htags in Ht. injection Ht as <-. exact Hb.
Qed.

(** *** Desired parameters and the diff *)

Lemma dget_non_null (k : string) (v : value) (params : dict) :
  dget k params = Some v -> is_none v = false ->
  dget k (non_null params) = Some v.
Proof.
  intros H Hv. induction params as [|[k' v'] params IH]; [discriminate|].
  simpl in *. destruct (String.eqb k k') eqn:E.
  - injection H as ->. rewrite Hv. simpl. now rewrite E.
  - destruct (is_none v'); simpl; [|rewrite E]; auto.
Qed.

Lemma dget_none_keys (k : string) (d : dict) :
  ~ In k (map fst d) -> dget k d = None.
Proof.
  induction d as [|[k' v'] d IH]; simpl; intros H; [reflexivity|].
  destruct (String.eqb k k') eqn:E.
  - apply String.eqb_eq in E. subst. tauto.
  - apply IH. tauto.
Qed.

Lemma in_dset (k : string) (v : value) (d : dict) : In (k, v) (dset k v d).
Proof.
  induction d as [|[k' v'] d IH]; simpl; [now left|].
  destruct (String.eqb k k') eqn:E.
  - apply String.eqb_eq in E. subst. now left.
  - now right.
Qed.

Lemma diff_settings_in (settings params : dict) (key : string) (new : value) :
  In (key, new) params ->
  py_eqb (dict_get settings key) new = false ->
  In (key, dict_get settings key, new) (diff_settings settings params).
Proof.
  intros Hin Hne. induction params as [|[k v] params IH]; [contradiction|].
  cbn [diff_settings].
  destruct Hin as [Heq|Hin].
  - injection Heq as -> ->. rewrite Hne. now left.
  - destruct (py_eqb (dict_get settings k) v); [|right]; auto.
Qed.

Lemma diff_settings_keys (settings params : dict) (key : string) :
  In key (map diff_key (diff_settings settings params)) ->
  In key (map fst params).
Proof.
  induction params as [|[k v] params IH]; [contradiction|].
  cbn [diff_settings].
  destruct (py_eqb (dict_get settings k) v); simpl; tauto.
Qed.

Lemma diff_settings_differ (settings params : dict) :
  Forall (fun d => py_eqb (diff_old d) (diff_new d) = false)
    (diff_settings settings params).
Proof.
  induction params as [|[k v] params IH]; [constructor|].
  cbn [diff_settings].
  destruct (py_eqb (dict_get settings k) v) eqn:E; auto.
Qed.

Lemma diff_settings_nil (settings params : dict) :
  (forall k v, In (k, v) params ->
     exists c, dget k settings = Some c /\ py_eqb c v = true) ->
  diff_settings settings params = [].
Proof.
  induction params as [|[k v] params IH]; intros H; [reflexivity|].
  cbn [diff_settings]. unfold dict_get.
  destruct (H k v (or_introl eq_refl)) as (c & -> & ->).
  apply IH. intros k' v' Hin. apply H. now right.
Qed.

Lemma py_eqb_none (v : value) : v <> VNone -> py_eqb v VNone = false.
Proof. destruct v; intros H; try reflexivity. congruence. Qed.

(** C3.  An empty-string [state_machine_rule_set] is still a desired
    field after the pre-processing of [ensure_release], with value null,
    and yields the Difference (state_machine_rule_set, current, null)
    whenever the current value is not null; a [state_machine_rule_set]
    that is absent or null is no desired field at all and yields no
    Difference, whatever the current value. *)
Theorem enum_unset_convention (params release : dict) :
  (dget "state_machine_rule_set" params = Some (VStr "") ->
   dget "state_machine_rule_set" (desired_params params) = Some VNone /\
   forall current,
     dget "state_machine_rule_set" release = Some current ->
     current <> VNone ->
     In ("state_machine_rule_set", current, VNone)
       (diff_settings release (desired_params params)))
  /\
  ((forall v, In ("state_machine_rule_set", v) params -> v = VNone) ->
   dget "state_machine_rule_set" (desired_params params) = None /\
   ~ In "state_machine_rule_set"
       (map diff_key (diff_settings release (desired_params params)))).
Proof.
  split.
  - intros H.
    assert (Hd : desired_params params =
                 dset "state_machine_rule_set" VNone (non_null params)).
    { unfold desired_params, dict_get.
      now rewrite (dget_non_null _ _ _ H eq_refl). }
    rewrite Hd. split; [apply dget_dset_same|].
    intros current Hcur Hnn.
    pose proof (diff_settings_in release
                  (dset "state_machine_rule_set" VNone (non_null params))
                  "state_machine_rule_set" VNone) as Hin.
    unfold dict_get in Hin. rewrite Hcur in Hin.
    apply Hin; [apply in_dset | now apply py_eqb_none].
  - intros H.
    assert (Hk : ~ In "state_machine_rule_set" (map fst (non_null params))).
    { intros Hin. apply in_map_iff in Hin as ([k v] & Hk & Hin).
      simpl in Hk. subst k. apply filter_In in Hin as [Hin Hv].
      apply H in Hin. subst v. discriminate. }
    assert (Hd : desired_params params = non_null params).
    { unfold desired_params, dict_get.
      now rewrite (dget_none_keys _ _ Hk). }
    rewrite Hd. split; [now apply dget_none_keys|].
    intros Hin. apply diff_settings_keys in Hin. contradiction.
Qed.

(** *** Translation and the write calls *)

Lemma M_bind_ok {A B} (c : M A) (k : A -> M B) (s : server) (b : B) :
  out (bind c k s) = Ok b ->
  exists a, out (c s) = Ok a /\ out (k a (remote (c s))) = Ok b.
Proof.
  rewrite run_bind. destruct (out (c s)) as [a|e]; [eauto | discriminate].
Qed.

Lemma out_ret {A} (a b : A) (s : server) :
  out (ret a s : run A) = Ok b -> a = b.
Proof. intros H. now injection H. Qed.










(** C5.  In [create_release] and in [edit_release] the translation of
    the params ([api_data], with every id resolution) only reads, and it
    is over before the POST or PUT is issued: when it raises, the call
    raises the same exception, the service is as it was and the requests
    made are the reads of the translation; when it returns, the write is
    the one request after those reads.  A program manager the service
    does not know makes the translation raise
    [ProgramManagerNotFoundError]. *)
Theorem resolution_precedes_write (s : server) :
  (forall params,
     remote (api_data params s) = s /\ writes (api_data params s) = [])
  /\
  (forall params e,
     out (api_data params s) = Raise e ->
     create_release params s =
     {| out := Raise e; remote := s; calls := calls (api_data params s) |})
  /\
  (forall params data,
     out (api_data params s) = Ok data ->
     calls (create_release params s) =
     (calls (api_data params s) ++ [Post "api/v1/releases" data])%list)
  /\
  (forall release_id differences e,
     out (api_data (params_of_differences differences) s) = Raise e ->
     edit_release release_id differences s =
     {| out := Raise e; remote := s;
        calls := calls (api_data (params_of_differences differences) s) |})
  /\
  (forall release_id differences data id,
     out (api_data (params_of_differences differences) s) = Ok data ->
     format_d release_id = Ok id ->
     calls (edit_release release_id differences s) =
     (calls (api_data (params_of_differences differences) s) ++
      [Put ("api/v1/releases/" ++ id) data])%list)
  /\
  (forall params login,
     dget "product" params = None ->
     dget "program_manager" params = Some login ->
     http_error (http_get s ("api/v1/user/" ++ py_str login) []) = true ->
     out (api_data params s) =
     Raise (ProgramManagerNotFoundError (py_str login))).
Proof.
  repeat split.
  - apply reads_only_api_data.
  - apply reads_only_api_data.
  - intros params e H. unfold create_release. rewrite run_bind, H.
    now destruct (reads_only_api_data params s) as [-> _].
  - intros params data H. unfold create_release. rewrite run_bind, H.
    cbn [after calls]. f_equal. rewrite run_bind. cbn [client_post out calls].
    cbn [after calls]. destruct (negb _); reflexivity.
  - intros release_id differences e H. unfold edit_release.
    rewrite run_bind, H.
    now destruct (reads_only_api_data (params_of_differences differences) s)
      as [-> _].
  - intros release_id differences data id H Hid. unfold edit_release.
    rewrite run_bind, H. cbn [after calls]. f_equal.
    rewrite bind_lift, Hid, run_bind. cbn [client_put out calls].
    cbn [after calls]. destruct (negb _); reflexivity.
  - intros params login Hproduct Hpm Hbad. unfold api_data.
    rewrite Hproduct, bind_ret, Hpm, run_bind.
    rewrite run_bind.
    unfold try_except, user_id. rewrite bind_client_get, Hbad.
    reflexivity.
Qed.

(** *** Reconciliation *)

Lemma calls_ret {A} (a : A) (s : server) : calls (ret a s : run A) = [].
Proof. reflexivity. Qed.

Ltac settle :=
  cbn [after out remote calls writes filter is_write app];
  repeat split; intros;
  try discriminate; try reflexivity; try assumption;
  try (left; assumption); try (right; eexists; reflexivity);
  try (rewrite ?calls_ret, ?app_nil_r; eexists; reflexivity).

(** A preview run next to the run that applies the change. *)
Lemma ensure_release_modes (params : dict) (s : server) :
  (remote (ensure_release params true s) = s /\
   writes (ensure_release params true s) = []) /\
  (forall e,
     out (ensure_release params true s) = Raise e ->
     ensure_release params false s = ensure_release params true s) /\
  (forall r,
     out (ensure_release params true s) = Ok r ->
     out (ensure_release params false s) = Ok r \/
     exists e, out (ensure_release params false s) = Raise e) /\
  (forall r,
     out (ensure_release params false s) = Ok r ->
     out (ensure_release params true s) = Ok r) /\
  (exists rest,
     calls (ensure_release params false s) =
     (calls (ensure_release params true s) ++ rest)%list).
Proof.
  unfold ensure_release. rewrite !bind_lift.
  destruct (dict_getitem (desired_params params) "name") as [name|e];
    [|settle].
  rewrite !run_bind.
  destruct (get_release_run name s) as [Hr Hc]. rewrite Hr, Hc.
  destruct (out (get_release name s)) as [release|e]; [|settle].
  destruct (release_missing release).
  - rewrite !bind_lift.
    destruct (prepare_diff_data release _) as [d|e]; [|settle].
    cbn [negb]. rewrite bind_ret, run_bind.
    destruct (out (create_release _ s)); settle.
  - destruct (diff_settings _ _) as [|d0 differences]; [settle|].
    rewrite !bind_lift.
    destruct (prepare_diff_data _ _) as [d|e]; [|settle].
    cbn [negb]. rewrite bind_ret, run_bind.
    match goal with
    | |- context [bind (lift (with_product_versions ?p ?ds)) ?k s] =>
        destruct (out (bind (lift (with_product_versions p ds)) k s))
    end; settle.
Qed.



(** C9, as the code has it.  Two runs of [ensure_release] from the same
    service state that both return give the same result, changed flag,
    stdout lines and diff, whatever [check_mode] is in each; and a
    preview that raises is matched by the very same run without
    preview: same exception, same requests, same final state.  (The
    flag gates the whole apply phase, so a run without preview may look
    ids up and raise where the preview returns.) *)
Theorem check_mode_noninterference (params : dict) (s : server) :
  (forall b1 b2 r1 r2,
     out (ensure_release params b1 s) = Ok r1 ->
     out (ensure_release params b2 s) = Ok r2 ->
     r1 = r2) /\
  (forall e,
     out (ensure_release params true s) = Raise e ->
     ensure_release params false s = ensure_release params true s).
Proof.
  destruct (ensure_release_modes params s) as (_ & He & _ & H & _).
  split; [|exact He].
  intros [|] [|] r1 r2 H1 H2.
  - congruence.
  - apply H in H2. congruence.
  - apply H in H1. congruence.
  - congruence.
Qed.

Lemma get_release_some (name : value) (s : server) (release : dict) :
  out (get_release name s) = Ok (Some release) -> release <> [].
Proof.
  unfold get_release. intros H.
  apply M_bind_ok in H as (r & _ & H).
  apply M_bind_ok in H as (u & _ & H).
  apply M_bind_ok in H as (results & _ & H).
  destruct (negb (truthy results)); [discriminate|].
  apply M_bind_ok in H as (n & _ & H).
  destruct (1 <? n)%nat; [discriminate|].
  apply M_bind_ok in H as (release_data & _ & H).
  apply M_bind_ok in H as (release' & Hn & H).
  apply out_ret in H. injection H as ->.
  apply normalize_release_ok in Hn.
  now destruct Hn as (? & ? & ? & ? & ? & ? & ? & ? & ? & ? & ?).
Qed.

(** C1.  When the release the service lists agrees with the desired
    params on every desired field, [ensure_release] returns changed =
    false with no change line and no diff, and its one request is the
    initial list query: no POST, no PUT, the service as it was. *)
Theorem ensure_release_idempotent
  (params : dict) (check_mode : bool) (s : server)
  (name : value) (release : dict) :
  dget "name" (desired_params params) = Some name ->
  out (get_release name s) = Ok (Some release) ->
  (forall k v,
     In (k, v) (desired_params params) ->
     exists c, dget k release = Some c /\ py_eqb c v = true) ->
  ensure_release params check_mode s =
  {| out := Ok {| changed := false; stdout_lines := []; diff := None |};
     remote := s;
     calls := [releases_query name] |}.
Proof.
  intros Hname Hrel Hsame. unfold ensure_release.
  rewrite bind_lift. unfold dict_getitem at 1. rewrite Hname.
  rewrite run_bind, Hrel.
  destruct (get_release_run name s) as [Hr Hc]. rewrite Hr, Hc.
  pose proof (get_release_some _ _ _ Hrel) as Hnn.
  destruct release as [|kv release]; [congruence|].
  cbn [release_missing].
  now rewrite (diff_settings_nil _ _ Hsame).
Qed.

Lemma with_product_versions_cases (params : dict)
  (differences differences' : list difference) :
  with_product_versions params differences = Ok differences' ->
  differences' = differences \/
  exists pv,
    differences' = (differences ++ [("product_versions", pv, pv)])%list /\
    ~ In ("product_versions", pv, pv) differences.
Proof.
  unfold with_product_versions.
  destruct (existsb _ _) eqn:E; cbn [negb]; intros H.
  - left. now injection H.
  - right. apply outcome_bind_ok in H as (pv & _ & H).
    injection H as <-. exists pv. split; [reflexivity|].
    intros Hin.
    assert (Hex : existsb (String.eqb "product_versions")
                    (map diff_key differences) = true).
    { apply existsb_exists. exists "product_versions". split.
      - apply in_map_iff. now exists ("product_versions", pv, pv).
      - reflexivity. }
    congruence.
Qed.

(** C10.  For a release that exists, the change lines are the
    descriptions of the differences [diff_settings] computed, one line
    per difference, every one of them a setting whose current and
    desired values are unequal, and the diff is [prepare_diff_data] of
    the release and the desired params; the list handed to
    [edit_release] is that list or that list followed by the unchanged
    (product_versions, desired, desired), which is none of the
    differences reported. *)
Theorem compensation_not_reported
  (params : dict) (check_mode : bool) (s : server)
  (name : value) (release : dict) (r : result) :
  dget "name" (desired_params params) = Some name ->
  out (get_release name s) = Ok (Some release) ->
  out (ensure_release params check_mode s) = Ok r ->
  let differences := diff_settings release (desired_params params) in
  stdout_lines r = describe_changes differences /\
  length (stdout_lines r) = length differences /\
  Forall (fun d => py_eqb (diff_old d) (diff_new d) = false) differences /\
  (differences <> [] ->
   prepare_diff_data (Some release) (desired_params params) = Ok
     (task_diff_data (Some release) (desired_params params) name "release"
        ["pelc_product_version_name"; "state_machine_rule_set";
         "zstream_target_release"]
        ["is_async"; "is_deferred"]) /\
   diff r = Some
     (task_diff_data (Some release) (desired_params params) name "release"
        ["pelc_product_version_name"; "state_machine_rule_set";
         "zstream_target_release"]
        ["is_async"; "is_deferred"])) /\
  (check_mode = false -> differences <> [] ->
   exists differences' release_id,
     with_product_versions (desired_params params) differences =
     Ok differences' /\
     (differences' = differences \/
      exists pv,
        differences' =
        (differences ++ [("product_versions", pv, pv)])%list /\
        ~ In ("product_versions", pv, pv) differences) /\
     calls (ensure_release params false s) =
     releases_query name :: calls (edit_release release_id differences' s)).
Proof.
  intros Hname Hrel Hout differences.
  assert (Hprep : prepare_diff_data (Some release) (desired_params params) =
                  Ok (task_diff_data (Some release) (desired_params params)
                        name "release"
                        ["pelc_product_version_name";
                         "state_machine_rule_set"; "zstream_target_release"]
                        ["is_async"; "is_deferred"])).
  { unfold prepare_diff_data, dict_getitem. now rewrite Hname. }
  pose proof (get_release_some _ _ _ Hrel) as Hnn.
  destruct (get_release_run name s) as [Hr Hc].
  assert (Hlen : forall l, length (describe_changes l) = length l)
    by (intros l; apply length_map).
  unfold ensure_release in *.
  rewrite bind_lift in *.
  unfold dict_getitem at 1. unfold dict_getitem at 1 in Hout.
  rewrite Hname in *. rewrite run_bind, Hrel, Hr, Hc in *.
  destruct release as [|kv release]; [congruence|].
  cbn [release_missing] in *.
  fold differences in Hout. fold differences.
  destruct differences as [|d0 ds] eqn:Ed.
  - cbn in Hout. injection Hout as <-. cbn.
    repeat split; try constructor; congruence.
  - rewrite bind_lift, Hprep in *.
    cbn [after out] in Hout.
    apply M_bind_ok in Hout as (u & Hu & Hout). apply out_ret in Hout.
    subst r. cbn [stdout_lines diff app].
    repeat split; auto.
    + rewrite <- Ed. apply diff_settings_differ.
    + intros -> _. cbn [negb] in *.
      rewrite bind_lift in Hu. rewrite run_bind, bind_lift.
      destruct (with_product_versions _ _) as [differences'|e] eqn:Ew;
        [|discriminate].
      rewrite bind_lift in Hu. rewrite bind_lift.
      destruct (dict_getitem (kv :: release) "id") as [release_id|e];
        [|discriminate].
      exists differences', release_id. split; [reflexivity|].
      split; [now apply with_product_versions_cases in Ew|].
      rewrite Hu. cbn [after calls app]. now rewrite app_nil_r.
Qed.

End Properties.

(** ** Concrete runs *)

Import Demo.

Ltac in_cases H :=
  repeat (destruct H as [H|H];
          [injection H as <- <-; eexists; split; reflexivity|]);
  contradiction.

(** Scenario B: the standing release is left alone, after one read. *)
Lemma ensure_release_idempotent_witness :
  ensure_release standing false errata =
  {| out := Ok {| changed := false; stdout_lines := []; diff := None |};
     remote := errata;
     calls := [releases_query (VStr "rhceph-4.0")] |}.
Proof.
  apply (ensure_release_idempotent (client := demo_client)
           standing false errata (VStr "rhceph-4.0") listed).
  - reflexivity.
  - reflexivity.
  - intros k v H. vm_compute in H. in_cases H.
Defined.


(** Scenario C reports the same with and without preview; params
    without a name raise the same [KeyError] either way. *)
Lemma check_mode_noninterference_witness :
  (out (ensure_release scenario_c true errata) = Ok report_c /\
   out (ensure_release scenario_c false errata) = Ok report_c) /\
  ensure_release [] false errata = ensure_release [] true errata.
Proof.
  assert (H1 : out (ensure_release scenario_c true errata) = Ok report_c)
    by reflexivity.
  split; [split; [exact H1|]|].
  - destruct (out (ensure_release (client := demo_client)
                     scenario_c false errata)) as [r|e] eqn:E.
    + f_equal.
      exact (proj1 (check_mode_noninterference (client := demo_client)
                      scenario_c errata)
               false true r report_c E H1).
    + vm_compute in E. discriminate E.
  - apply (proj2 (check_mode_noninterference (client := demo_client)
                    [] errata) (KeyError (VStr "name"))).
    reflexivity.
Defined.

(** Unsetting the rule set of the listed release, and leaving it out. *)
Lemma enum_unset_convention_witness :
  In ("state_machine_rule_set", VStr "Unrestricted", VNone)
    (diff_settings listed (desired_params unset_rule_set)) /\
  ~ In "state_machine_rule_set"
      (map diff_key (diff_settings listed (desired_params standing))).
Proof.
  split.
  - apply (proj1 (enum_unset_convention unset_rule_set listed)).
    + reflexivity.
    + reflexivity.
    + discriminate.
  - apply (proj2 (enum_unset_convention standing listed)).
    intros v H. vm_compute in H.
    repeat (destruct H as [H|H]; [try discriminate H; now injection H|]).
    contradiction.
Defined.



(** Scenario D: the unknown program manager stops the create and the
    edit before any write; scenarios A and C: the write comes last. *)
Lemma resolution_precedes_write_witness :
  out (api_data (desired_params scenario_d) errata) =
  Raise (ProgramManagerNotFoundError "ghost@redhat.com") /\
  create_release (desired_params scenario_d) errata =
  {| out := Raise (ProgramManagerNotFoundError "ghost@redhat.com");
     remote := errata;
     calls := calls (api_data (desired_params scenario_d) errata) |} /\
  edit_release (VInt 1017)
    [("program_manager", VNone, VStr "ghost@redhat.com")] errata =
  {| out := Raise (ProgramManagerNotFoundError "ghost@redhat.com");
     remote := errata;
     calls := [Get "api/v1/user/ghost@redhat.com" []] |} /\
  calls (create_release scenario_a empty_errata) =
  [Get "product_versions/RHCEPH-4.0-RHEL-8.json" [];
   Post "api/v1/releases"
     (VDict [("release",
               VDict [("name", VStr "rhceph-4.0");
                      ("type", VStr "QuarterlyUpdate");
                      ("product_version_ids", VList [VInt 929])]);
             ("type", VStr "QuarterlyUpdate")])] /\
  calls (edit_release (VInt 1017)
           [("active", VBool true, VBool false);
            ("product_versions",
              VList [VStr "RHCEPH-4.0-RHEL-8"; VStr "RHEL-7-RHCEPH-4.0"],
              VList [VStr "RHCEPH-4.0-RHEL-8"; VStr "RHEL-7-RHCEPH-4.0"])]
           errata) =
  [Get "product_versions/RHCEPH-4.0-RHEL-8.json" [];
   Get "product_versions/RHEL-7-RHCEPH-4.0.json" [];
   Put "api/v1/releases/1017" payload_c].
Proof.
  destruct (resolution_precedes_write (client := demo_client) errata)
    as (_ & Hcreate & _ & Hedit & Hput & Hpm).
  destruct (resolution_precedes_write (client := demo_client) empty_errata)
    as (_ & _ & Hpost & _).
  split; [|split; [|split; [|split]]].
  - apply (Hpm (desired_params scenario_d) (VStr "ghost@redhat.com"));
      reflexivity.
  - apply (Hcreate (desired_params scenario_d)). reflexivity.
  - apply (Hedit (VInt 1017)
             [("program_manager", VNone, VStr "ghost@redhat.com")]).
    reflexivity.
  - apply (Hpost scenario_a). reflexivity.
  - exact (Hput (VInt 1017)
             [("active", VBool true, VBool false);
              ("product_versions",
                VList [VStr "RHCEPH-4.0-RHEL-8"; VStr "RHEL-7-RHCEPH-4.0"],
                VList [VStr "RHCEPH-4.0-RHEL-8"; VStr "RHEL-7-RHCEPH-4.0"])]
             payload_c "1017" eq_refl eq_refl).
Defined.

(** The one release listed under its name is returned normalized; no
    release gives [None]; two releases are an error. *)
Lemma get_release_outcomes_witness :
  get_release (VStr "rhceph-4.0") errata =
  {| out := Ok (Some listed);
     remote := errata;
     calls := [Get "api/v1/releases"
                 [("filter[name]", VStr "rhceph-4.0")]] |} /\
  get_release (VStr "rhceph-4.0") empty_errata =
  {| out := Ok None;
     remote := empty_errata;
     calls := [Get "api/v1/releases"
                 [("filter[name]", VStr "rhceph-4.0")]] |} /\
  get_release (VStr "rhceph-4.0") doubled =
  {| out := Raise (ValueError (VStr "multiple rhceph-4.0 releases found"));
     remote := doubled;
     calls := [Get "api/v1/releases"
                 [("filter[name]", VStr "rhceph-4.0")]] |}.
Proof.
  split; [|split].
  - exact (get_release_outcomes (client := demo_client) errata
             (VStr "rhceph-4.0") [raw_release] eq_refl eq_refl).
  - exact (get_release_outcomes (client := demo_client) empty_errata
             (VStr "rhceph-4.0") [] eq_refl eq_refl).
  - exact (get_release_outcomes (client := demo_client) doubled
             (VStr "rhceph-4.0") [raw_release; raw_release]
             eq_refl eq_refl).
Defined.

(** Two names resolve in order; an unknown name between them stops the
    loop after its own lookup. *)
Lemma get_product_version_ids_in_order_witness :
  get_product_version_ids
    (VList [VStr "RHEL-7-RHCEPH-4.0"; VStr "RHCEPH-4.0-RHEL-8"]) errata =
  {| out := Ok (VList [VInt 930; VInt 929]);
     remote := errata;
     calls := [Get "product_versions/RHEL-7-RHCEPH-4.0.json" [];
               Get "product_versions/RHCEPH-4.0-RHEL-8.json" []] |} /\
  get_product_version_ids
    (VList [VStr "RHEL-7-RHCEPH-4.0"; VStr "RHCEPH-5";
            VStr "RHCEPH-4.0-RHEL-8"])
    errata =
  {| out := Raise (HTTPError "product_versions/RHCEPH-5.json" 404);
     remote := errata;
     calls := [Get "product_versions/RHEL-7-RHCEPH-4.0.json" [];
               Get "product_versions/RHCEPH-5.json" []] |}.
Proof.
  destruct (get_product_version_ids_in_order (client := demo_client) errata)
    as [Hall Hfirst].
  split.
  - apply (Hall [VStr "RHEL-7-RHCEPH-4.0"; VStr "RHCEPH-4.0-RHEL-8"]
             [VInt 930; VInt 929]).
    repeat constructor.
  - apply (Hfirst [VStr "RHEL-7-RHCEPH-4.0"] [VInt 930] (VStr "RHCEPH-5")
             [VStr "RHCEPH-4.0-RHEL-8"]).
    + repeat constructor.
    + reflexivity.
Defined.

(** The product versions of the listed release are the names, in the
    order sent; its brew tags are the payload as sent. *)
Lemma normalize_release_list_relationships_witness :
  (exists names,
     Forall2 (fun element name => getitem element "name" = Ok name)
       [VDict [("id", VInt 929); ("name", VStr "RHCEPH-4.0-RHEL-8")];
        VDict [("id", VInt 930); ("name", VStr "RHEL-7-RHCEPH-4.0")]]
       names /\
     dget "product_versions" listed = Some (VList names)) /\
  dget "brew_tags" listed = Some (VList [VStr "ceph-4.0-rhel-8-candidate"]).
Proof.
  split.
  - apply (proj1 (normalize_release_list_relationships raw_release) listed);
      reflexivity.
  - apply (proj2 (normalize_release_list_relationships raw_release) listed);
      reflexivity.
Defined.

(** Brew tags sent as objects stay objects: they are not replaced by
    their names. *)
Lemma brew_tags_not_flattened :
  ~ flattens_to_names "brew_tags" tagged_release.
Proof.
  intros H.
  destruct (H [("id", VInt 1018); ("name", VStr "rhceph-4.1");
               ("ship_date", VNone); ("product", VNone);
               ("program_manager", VNone);
               ("state_machine_rule_set", VNone);
               ("brew_tags", VList [candidate_tag]);
               ("product_versions", VList []);
               ("active", VBool true)]
              [candidate_tag] eq_refl eq_refl) as (names & Hnames & Hget).
  vm_compute in Hget. injection Hget as <-.
  inversion Hnames as [|? ? ? ? Hname _]; subst.
  vm_compute in Hname. discriminate Hname.
Qed.

(** Scenario D with and without check mode: the preview returns its
    report after the list query; the run that applies the change looks
    the program manager up and raises for the unknown account. *)
Lemma scenario_d_runs :
  out (ensure_release scenario_d true errata) = Ok Cases.report_d /\
  out (ensure_release scenario_d false errata) =
  Raise (ProgramManagerNotFoundError "ghost@redhat.com") /\
  read_calls (ensure_release scenario_d true errata) =
  [releases_query (VStr "rhceph-4.0")] /\
  read_calls (ensure_release scenario_d false errata) =
  [releases_query (VStr "rhceph-4.0");
   Get "api/v1/user/ghost@redhat.com" []].
Proof. repeat split; reflexivity. Qed.


(** In scenario D [check_mode] decides more than the write calls: the
    run ends differently and makes one more read without it. *)
Lemma check_mode_gates_lookups :
  ~ check_mode_gates_writes_only scenario_d errata.
Proof.
  intros [H _]. destruct scenario_d_runs as (Htrue & Hfalse & _).
  rewrite Htrue, Hfalse in H. discriminate H.
Qed.

(** Scenario C: one change line, for [active]; the PUT was built from
    that difference followed by the unchanged product versions. *)
Lemma compensation_not_reported_witness :
  stdout_lines report_c =
  describe_changes [("active", VBool true, VBool false)] /\
  exists differences' release_id,
    with_product_versions (desired_params scenario_c)
      [("active", VBool true, VBool false)] = Ok differences' /\
    (differences' = [("active", VBool true, VBool false)] \/
     exists pv,
       differences' =
       ([("active", VBool true, VBool false)] ++
        [("product_versions", pv, pv)])%list /\
       ~ In ("product_versions", pv, pv)
           [("active", VBool true, VBool false)]) /\
    calls (ensure_release scenario_c false errata) =
    releases_query (VStr "rhceph-4.0") ::
    calls (edit_release release_id differences' errata).
Proof.
  pose proof (compensation_not_reported (client := demo_client)
                scenario_c false errata (VStr "rhceph-4.0") listed report_c
                eq_refl eq_refl eq_refl) as H.
  cbv zeta in H. destruct H as (Hlines & _ & _ & _ & Hedit).
  split.
  - exact Hlines.
  - apply Hedit.
    + reflexivity.
    + discriminate.
Defined.

(** ** Further properties *)

Section More_properties.

Context {client : Client} {lib : Library}.

#[local] Arguments bind : simpl never.
#[local] Arguments ret : simpl never.

Ltac keys :=
  repeat first
    [ rewrite dget_dset_same
    | rewrite dget_dset_other by discriminate
    | rewrite dget_ddel_other by discriminate ].

(** *** More on dictionaries *)

Lemma dget_ddel_same (k : string) (d : dict) : dget k (ddel k d) = None.
Proof.
  induction d as [|[k' v'] d IH]; simpl; [reflexivity|].
  destruct (String.eqb k k') eqn:E; simpl; [exact IH|].
  now rewrite E.
Qed.

Lemma dget_dupdate (k : string) (d other : dict) :
  NoDup (map fst other) ->
  dget k (dupdate d other) =
  match dget k other with
  | Some v => Some v
  | None => dget k d
  end.
Proof.
  unfold dupdate. revert d.
  induction other as [|[k' v'] other IH]; intros d Hnd; [reflexivity|].
  inversion Hnd as [|? ? Hnotin Hnd']; subst.
  cbn [fold_left fst snd dget]. rewrite (IH _ Hnd').
  destruct (String.eqb k k') eqn:E.
  - apply String.eqb_eq in E. subst k'.
    rewrite (dget_none_keys _ _ Hnotin). apply dget_dset_same.
  - apply String.eqb_neq in E.
    destruct (dget k other); [reflexivity|].
    now apply dget_dset_other.
Qed.

Lemma dset_same (k : string) (v : value) (d : dict) :
  dget k d = Some v -> dset k v d = d.
Proof.
  induction d as [|[k' v'] d IH]; simpl; [discriminate|].
  destruct (String.eqb k k') eqn:E.
  - intros H. injection H as ->. reflexivity.
  - intros H. now rewrite IH.
Qed.

Lemma dict_getitem_ok (d : dict) (k : string) (v : value) :
  dict_getitem d k = Ok v -> dget k d = Some v.
Proof.
  unfold dict_getitem. destruct (dget k d); [|discriminate].
  intros H. now injection H as ->.
Qed.

Lemma prefix_length_min (n : nat) (s : string) :
  String.length (prefix n s) = Nat.min n (String.length s).
Proof.
  revert s. induction n as [|n IH]; intros [|c s]; simpl; try reflexivity.
  now rewrite IH.
Qed.

Lemma prefix_app (n : nat) (s : string) :
  exists rest, s = (prefix n s ++ rest)%string.
Proof.
  revert s. induction n as [|n IH]; intros [|c s]; simpl.
  - now exists "".
  - now exists (String c s).
  - now exists "".
  - destruct (IH s) as [rest Hrest]. exists rest. now rewrite <- Hrest.
Qed.

(** *** More on the normalizer *)

(** Every step of a normalization that returned. *)
Lemma normalize_release_steps (release_data : value) (release : dict) :
  normalize_release release_data = Ok release ->
  exists id attributes r0 product short_name program_manager login_name
         rule_set rule_set_name brew_tags names is_active ship_date,
    getitem release_data "id" = Ok id /\
    getitem release_data "attributes" = Ok attributes /\
    py_update [("id", id)] attributes = Ok r0 /\
    relationship release_data "product" = Ok product /\
    flatten product "short_name" = Ok short_name /\
    relationship release_data "program_manager" = Ok program_manager /\
    flatten program_manager "login_name" = Ok login_name /\
    relationship release_data "state_machine_rule_set" = Ok rule_set /\
    flatten rule_set "name" = Ok rule_set_name /\
    dict_getitem
      (dset "product_versions" (VList names)
         (dset "brew_tags" brew_tags
            (dset "state_machine_rule_set" rule_set_name
               (dset "program_manager" login_name
                  (dset "product" short_name r0)))))
      "is_active" = Ok is_active /\
    dict_getitem
      (dset "active" is_active
         (ddel "is_active"
            (dset "product_versions" (VList names)
               (dset "brew_tags" brew_tags
                  (dset "state_machine_rule_set" rule_set_name
                     (dset "program_manager" login_name
                        (dset "product" short_name r0)))))))
      "ship_date" = Ok ship_date /\
    exists day,
      (if negb (is_none ship_date)
       then slice10 ship_date
       else Ok ship_date) = Ok day /\
      release =
      dset "ship_date" day
        (dset "active" is_active
           (ddel "is_active"
              (dset "product_versions" (VList names)
                 (dset "brew_tags" brew_tags
                    (dset "state_machine_rule_set" rule_set_name
                       (dset "program_manager" login_name
                          (dset "product" short_name r0))))))).
Proof.
  unfold normalize_release. intros H.
  apply outcome_bind_ok in H as (id & Hid & H).
  apply outcome_bind_ok in H as (attributes & Hattr & H).
  apply outcome_bind_ok in H as (r0 & Hr0 & H).
  apply outcome_bind_ok in H as (product & Hp & H).
  apply outcome_bind_ok in H as (short_name & Hsn & H).
  apply outcome_bind_ok in H as (program_manager & Hpm & H).
  apply outcome_bind_ok in H as (login_name & Hln & H).
  apply outcome_bind_ok in H as (rule_set & Hrs & H).
  apply outcome_bind_ok in H as (rule_set_name & Hrn & H).
  apply outcome_bind_ok in H as (brew_tags & _ & H).
  apply outcome_bind_ok in H as (pvd & _ & H).
  apply outcome_bind_ok in H as (pvs & _ & H).
  apply outcome_bind_ok in H as (names & _ & H).
  apply outcome_bind_ok in H as (is_active & Hact & H).
  apply outcome_bind_ok in H as (ship_date & Hsd & H).
  exists id, attributes, r0, product, short_name, program_manager,
    login_name, rule_set, rule_set_name, brew_tags, names, is_active,
    ship_date.
  repeat (split; [assumption|]).
  destruct (negb (is_none ship_date)) eqn:E.
  - apply outcome_bind_ok in H as (day & Hday & H). injection H as <-.
    exists day. now split.
  - injection H as <-. exists ship_date. split; [reflexivity|].
    symmetry. apply dset_same. now apply dict_getitem_ok.
Qed.

(** X1.  For each of the relationships product, program_manager and
    state_machine_rule_set, the normalized release holds null when the
    payload is empty or null, and otherwise the short_name, login_name
    or name of the payload. *)
Theorem normalize_release_scalar_relationships
  (release_data : value) (release : dict)
  (field key : string) (payload : value) :
  normalize_release release_data = Ok release ->
  In (field, key)
    [("product", "short_name"); ("program_manager", "login_name");
     ("state_machine_rule_set", "name")] ->
  relationship release_data field = Ok payload ->
  (truthy payload = false -> dget field release = Some VNone) /\
  (truthy payload = true ->
   exists v, getitem payload key = Ok v /\ dget field release = Some v).
Proof.
  intros H Hin Hrel.
  apply normalize_release_steps in H
    as (id & attributes & r0 & product & short_name & program_manager &
        login_name & rule_set & rule_set_name & brew_tags & names &
        is_active & ship_date & _ & _ & _ & Hp & Hsn & Hpm & Hln & Hrs &
        Hrn & _ & _ & day & _ & ->).
  unfold flatten in *.
  destruct Hin as [E|[E|[E|[]]]]; injection E as <- <-;
    rewrite Hrel in *.
  - injection Hp as <-. keys.
    destruct (truthy payload); split; intros; try discriminate; eauto.
    now injection Hsn as <-.
  - injection Hpm as <-. keys.
    destruct (truthy payload); split; intros; try discriminate; eauto.
    now injection Hln as <-.
  - injection Hrs as <-. keys.
    destruct (truthy payload); split; intros; try discriminate; eauto.
    now injection Hrn as <-.
Qed.

(** X2.  The normalized release has no [is_active] key; its [active] is
    the [is_active] attribute of the resource, which is there whenever
    the normalization returns. *)
Theorem normalize_release_active
  (release_data : value) (release attributes : dict) :
  normalize_release release_data = Ok release ->
  getitem release_data "attributes" = Ok (VDict attributes) ->
  NoDup (map fst attributes) ->
  dget "is_active" release = None /\
  exists v,
    dget "is_active" attributes = Some v /\
    dget "active" release = Some v.
Proof.
  intros H Hattr Hnd.
  apply normalize_release_steps in H
    as (id & attributes' & r0 & product & short_name & program_manager &
        login_name & rule_set & rule_set_name & brew_tags & names &
        is_active & ship_date & _ & Hattr' & Hr0 & _ & _ & _ & _ & _ &
        _ & Hact & _ & day & _ & ->).
  rewrite Hattr in Hattr'. injection Hattr' as <-.
  cbn [py_update] in Hr0. injection Hr0 as <-.
  apply dict_getitem_ok in Hact. revert Hact. keys.
  rewrite (dget_dupdate _ _ _ Hnd). cbn [dget String.eqb Ascii.eqb Bool.eqb].
  intros Hact. split; [apply dget_ddel_same|].
  exists is_active. split; [|reflexivity].
  now destruct (dget "is_active" attributes).
Qed.

(** X3.  The [ship_date] attribute is there whenever the normalization
    returns; a null ship date stays null, and a string is cut to exactly
    its first ten characters: the ship date of the release is the
    prefix of the timestamp whose length is ten, or the length of the
    timestamp when that is shorter. *)
Theorem normalize_release_ship_date
  (release_data : value) (release attributes : dict) :
  normalize_release release_data = Ok release ->
  getitem release_data "attributes" = Ok (VDict attributes) ->
  NoDup (map fst attributes) ->
  exists ship_date,
    dget "ship_date" attributes = Some ship_date /\
    (ship_date = VNone -> dget "ship_date" release = Some VNone) /\
    (forall timestamp,
       ship_date = VStr timestamp ->
       exists day rest,
         dget "ship_date" release = Some (VStr day) /\
         timestamp = (day ++ rest)%string /\
         String.length day = Nat.min 10 (String.length timestamp)).
Proof.
  intros H Hattr Hnd.
  apply normalize_release_steps in H
    as (id & attributes' & r0 & product & short_name & program_manager &
        login_name & rule_set & rule_set_name & brew_tags & names &
        is_active & ship_date & _ & Hattr' & Hr0 & _ & _ & _ & _ & _ &
        _ & _ & Hsd & day & Hday & ->).
  rewrite Hattr in Hattr'. injection Hattr' as <-.
  cbn [py_update] in Hr0. injection Hr0 as <-.
  apply dict_getitem_ok in Hsd. revert Hsd. keys.
  rewrite (dget_dupdate _ _ _ Hnd). cbn [dget String.eqb Ascii.eqb Bool.eqb].
  intros Hsd. exists ship_date. split.
  { now destruct (dget "ship_date" attributes). }
  split.
  - intros ->. cbn in Hday. now injection Hday as <-.
  - intros timestamp ->. cbn in Hday. injection Hday as <-.
    destruct (prefix_app 10 timestamp) as [rest Hrest].
    exists (prefix 10 timestamp), rest. split; [reflexivity|].
    split; [exact Hrest | apply prefix_length_min].
Qed.

(** X4.  Every attribute whose name [get_release] does not set by itself
    is in the normalized release as the server sent it; the [id] of the
    release is the id of the resource unless an attribute is named
    [id]. *)
Theorem normalize_release_attributes
  (release_data : value) (release attributes : dict) :
  normalize_release release_data = Ok release ->
  getitem release_data "attributes" = Ok (VDict attributes) ->
  NoDup (map fst attributes) ->
  (forall k v,
     ~ In k normalized_names ->
     dget k attributes = Some v ->
     dget k release = Some v) /\
  (dget "id" attributes = None ->
   exists id,
     getitem release_data "id" = Ok id /\ dget "id" release = Some id).
Proof.
  intros H Hattr Hnd.
  apply normalize_release_steps in H
    as (id & attributes' & r0 & product & short_name & program_manager &
        login_name & rule_set & rule_set_name & brew_tags & names &
        is_active & ship_date & Hid & Hattr' & Hr0 & _ & _ & _ & _ & _ &
        _ & _ & _ & day & _ & ->).
  rewrite Hattr in Hattr'. injection Hattr' as <-.
  cbn [py_update] in Hr0. injection Hr0 as <-.
  split.
  - intros k v Hk Hv. unfold normalized_names in Hk. cbn [In] in Hk.
    rewrite !dget_dset_other, dget_ddel_other, !dget_dset_other
      by (intros ->; tauto).
    now rewrite (dget_dupdate _ _ _ Hnd), Hv.
  - intros Hnone. exists id. split; [exact Hid|]. keys.
    now rewrite (dget_dupdate _ _ _ Hnd), Hnone.
Qed.

(** *** More on the translation *)

Create HintDb reads2.

#[local] Hint Resolve reads_only_ret reads_only_raise reads_only_lift
  reads_only_client_get reads_only_raise_for_status reads_only_user_id
  reads_only_rules_scraper_enum reads_only_get_product_id
  reads_only_get_product_version_ids reads_only_api_data : reads2.

Ltac reads :=
  repeat first
    [ solve [auto with reads2]
    | apply reads_only_bind; [|intro]
    | apply reads_only_try; [|intros ? ? ?]
    | match goal with
      | |- reads_only (match ?x with _ => _ end) => destruct x
      | |- reads_only (if ?x then _ else _) => destruct x
      | H : match ?e with _ => _ end = Some _ |- _ =>
          destruct e; inversion H; apply reads_only_raise
      end ].

(** The state a reading step hands on is the state it was given. *)
Ltac same_state H s :=
  match type of H with
  | context [remote (?c s)] =>
      let E := fresh "E" in
      assert (E : remote (c s) = s)
        by (assert (R : reads_only c) by reads; exact (proj1 (R s)));
      rewrite E in H; clear E
  end.

(** Every step of a translation that returned: the dict after each
    block of [api_data], what the block left alone and what it set. *)
Lemma api_data_steps (params : dict) (s : server) (data : value) :
  out (api_data params s) = Ok data ->
  exists r1 r2 r3 r4 r5 r6 r7 : dict,
    ((forall k, k <> "product" -> k <> "product_id" ->
                dget k r1 = dget k params) /\
     dget "product" r1 = None /\
     ((dget "product" params = None \/
       dget "product" params = Some VNone) ->
      dget "product_id" r1 = dget "product_id" params) /\
     (forall name,
        dget "product" params = Some name -> name <> VNone ->
        exists id,
          out (get_product_id name s) = Ok id /\
          dget "product_id" r1 = Some id) /\
     (dget "product" params = None -> r1 = params)) /\
    ((forall k, k <> "program_manager" -> k <> "program_manager_id" ->
                dget k r2 = dget k r1) /\
     dget "program_manager" r2 = None /\
     (dget "program_manager" r1 = None -> r2 = r1)) /\
    ((forall k, k <> "active" -> k <> "isactive" ->
                dget k r3 = dget k r2) /\
     dget "active" r3 = None /\
     (forall v, dget "active" r2 = Some v -> dget "isactive" r3 = Some v) /\
     (dget "active" r2 = None -> r3 = r2)) /\
    ((forall k, k <> "supports_component_acl" -> k <> "disable_acl" ->
                dget k r4 = dget k r3) /\
     dget "supports_component_acl" r4 = None /\
     (forall v,
        dget "supports_component_acl" r3 = Some v ->
        dget "disable_acl" r4 = Some (VBool (negb (truthy v)))) /\
     (dget "supports_component_acl" r3 = None -> r4 = r3)) /\
    ((forall k, k <> "product_versions" -> k <> "product_version_ids" ->
                dget k r5 = dget k r4) /\
     dget "product_versions" r5 = None /\
     (forall names,
        dget "product_versions" r4 = Some names ->
        exists ids,
          out (get_product_version_ids names s) = Ok ids /\
          dget "product_version_ids" r5 = Some ids) /\
     (dget "product_versions" r4 = None -> r5 = r4)) /\
    ((forall k, k <> "state_machine_rule_set" ->
                k <> "state_machine_rule_set_id" ->
                dget k r6 = dget k r5) /\
     dget "state_machine_rule_set" r6 = None /\
     (forall v,
        dget "state_machine_rule_set" r5 = Some v -> truthy v = false ->
        dget "state_machine_rule_set_id" r6 = Some VNone) /\
     (forall v,
        dget "state_machine_rule_set" r5 = Some v -> truthy v = true ->
        exists n,
          out (rules_scraper_enum v s) = Ok n /\
          dget "state_machine_rule_set_id" r6 = Some (VInt n)) /\
     (dget "state_machine_rule_set" r5 = None -> r6 = r5)) /\
    ((forall k, k <> "blocker_flags" -> dget k r7 = dget k r6) /\
     (forall flags,
        dget "blocker_flags" r6 = Some flags ->
        exists joined,
          py_join "," flags = Ok joined /\
          dget "blocker_flags" r7 = Some joined) /\
     (dget "blocker_flags" r6 = None -> r7 = r6)) /\
    data =
    VDict
      match dget "type" params with
      | Some type => dset "type" type [("release", VDict r7)]
      | None => [("release", VDict r7)]
      end.
Proof.
  intros H. unfold api_data in H.
  apply M_bind_ok in H as (r1 & H1 & H). same_state H s.
  apply M_bind_ok in H as (r2 & H2 & H). same_state H s.
  set (r3 := match dget "active" r2 with
             | Some active => dset "isactive" active (ddel "active" r2)
             | None => r2
             end) in *.
  set (r4 := match dget "supports_component_acl" r3 with
             | Some v => dset "disable_acl" (VBool (negb (truthy v)))
                           (ddel "supports_component_acl" r3)
             | None => r3
             end) in *.
  apply M_bind_ok in H as (r5 & H5 & H). same_state H s.
  apply M_bind_ok in H as (r6 & H6 & H). same_state H s.
  apply M_bind_ok in H as (r7 & H7 & H). same_state H s.
  apply out_ret in H.
  exists r1, r2, r3, r4, r5, r6, r7.
  split; [|split; [|split; [|split; [|split; [|split; [|split]]]]]].
  - (* product *)
    destruct (dget "product" params) as [name|] eqn:E.
    + destruct name; cbn [is_none negb] in H1;
        try (apply M_bind_ok in H1 as (id & Hid & H1);
             apply out_ret in H1; subst r1;
             repeat split;
             [ intros k K1 K2; now rewrite dget_dset_other, dget_ddel_other
             | rewrite dget_dset_other by discriminate; apply dget_ddel_same
             | intros [K|K]; discriminate K
             | intros name' K _; injection K as <-;
               exists id; split; [exact Hid | apply dget_dset_same]
             | intros K; discriminate K ]).
      apply out_ret in H1. subst r1. repeat split.
      * intros k K1 K2. now rewrite dget_ddel_other.
      * apply dget_ddel_same.
      * intros _. now rewrite dget_ddel_other by discriminate.
      * intros name' K Hn. injection K as <-. congruence.
      * intros K. discriminate K.
    + apply out_ret in H1. subst r1. repeat split; auto; discriminate.
  - (* program_manager *)
    destruct (dget "program_manager" r1) as [login|] eqn:E.
    + apply M_bind_ok in H2 as (id & _ & H2). apply out_ret in H2.
      subst r2. repeat split.
      * intros k K1 K2. now rewrite dget_dset_other, dget_ddel_other.
      * rewrite dget_dset_other by discriminate. apply dget_ddel_same.
      * intros K. discriminate K.
    + apply out_ret in H2. subst r2. repeat split; auto.
  - (* active *)
    subst r3. destruct (dget "active" r2) as [active|] eqn:E.
    + repeat split.
      * intros k K1 K2. now rewrite dget_dset_other, dget_ddel_other.
      * rewrite dget_dset_other by discriminate. apply dget_ddel_same.
      * intros v K. injection K as <-. apply dget_dset_same.
      * intros K. discriminate K.
    + repeat split; auto; discriminate.
  - (* supports_component_acl *)
    subst r4. destruct (dget "supports_component_acl" r3) as [acl|] eqn:E.
    + repeat split.
      * intros k K1 K2. now rewrite dget_dset_other, dget_ddel_other.
      * rewrite dget_dset_other by discriminate. apply dget_ddel_same.
      * intros v K. injection K as <-. apply dget_dset_same.
      * intros K. discriminate K.
    + repeat split; auto; discriminate.
  - (* product_versions *)
    destruct (dget "product_versions" r4) as [names|] eqn:E.
    + apply M_bind_ok in H5 as (ids & Hids & H5). apply out_ret in H5.
      subst r5. repeat split.
      * intros k K1 K2. now rewrite dget_dset_other, dget_ddel_other.
      * rewrite dget_dset_other by discriminate. apply dget_ddel_same.
      * intros names' K. injection K as <-. exists ids.
        split; [exact Hids | apply dget_dset_same].
      * intros K. discriminate K.
    + apply out_ret in H5. subst r5. repeat split; auto; discriminate.
  - (* state_machine_rule_set *)
    destruct (dget "state_machine_rule_set" r5) as [rule_set|] eqn:E.
    + destruct (truthy rule_set) eqn:T.
      * apply M_bind_ok in H6 as (n & Hn & H6). apply out_ret in H6.
        subst r6. repeat split.
        -- intros k K1 K2. now rewrite dget_dset_other, dget_ddel_other.
        -- rewrite dget_dset_other by discriminate. apply dget_ddel_same.
        -- intros v K Tv. injection K as <-. congruence.
        -- intros v K _. injection K as <-. exists n.
           split; [exact Hn | apply dget_dset_same].
        -- intros K. discriminate K.
      * apply out_ret in H6. subst r6. repeat split.
        -- intros k K1 K2. now rewrite dget_dset_other, dget_ddel_other.
        -- rewrite dget_dset_other by discriminate. apply dget_ddel_same.
        -- intros v K _. apply dget_dset_same.
        -- intros v K Tv. injection K as <-. congruence.
        -- intros K. discriminate K.
    + apply out_ret in H6. subst r6. repeat split; auto; discriminate.
  - (* blocker_flags *)
    destruct (dget "blocker_flags" r6) as [flags|] eqn:E.
    + apply M_bind_ok in H7 as (joined & Hj & H7). apply out_ret in H7.
      subst r7. repeat split.
      * intros k K. now rewrite dget_dset_other.
      * intros flags' K. injection K as <-. exists joined.
        split; [|apply dget_dset_same].
        cbn in Hj. exact Hj.
      * intros K. discriminate K.
    + apply out_ret in H7. subst r7. repeat split; auto; discriminate.
  - now subst data.
Qed.

Lemma data_release (params r7 : dict) :
  getitem
    (VDict
       match dget "type" params with
       | Some type => dset "type" type [("release", VDict r7)]
       | None => [("release", VDict r7)]
       end) "release" = Ok (VDict r7).
Proof. destruct (dget "type" params); reflexivity. Qed.

(** X5.  The release mapping [api_data] returns never carries one of the
    names it translates: product, program_manager, active,
    supports_component_acl, product_versions, state_machine_rule_set. *)
Theorem api_data_drops_canonical_names
  (params : dict) (s : server) (data : value) :
  out (api_data params s) = Ok data ->
  exists release,
    getitem data "release" = Ok (VDict release) /\
    forall k, In k canonical_names -> dget k release = None.
Proof.
  intros H.
  apply api_data_steps in H
    as (r1 & r2 & r3 & r4 & r5 & r6 & r7 &
        (T1 & N1 & _) & (T2 & N2 & _) & (T3 & N3 & _) & (T4 & N4 & _) &
        (T5 & N5 & _) & (T6 & N6 & _) & (T7 & _) & ->).
  exists r7. split; [apply data_release|].
  intros k Hk. unfold canonical_names in Hk. cbn [In] in Hk.
  destruct Hk as [<-|[<-|[<-|[<-|[<-|[<-|[]]]]]]].
  - now rewrite T7, T6, T5, T4, T3, T2 by discriminate.
  - now rewrite T7, T6, T5, T4, T3 by discriminate.
  - now rewrite T7, T6, T5, T4 by discriminate.
  - now rewrite T7, T6, T5 by discriminate.
  - now rewrite T7, T6 by discriminate.
  - now rewrite T7 by discriminate.
Qed.

(** X6.  [api_data] returns a mapping with the key [release] and, when
    the params have a [type], the key [type] with that same value, and
    no other key; every param that is not one of the translated names is
    in the release mapping as it is in the params, [type] included. *)
Theorem api_data_passes_other_params
  (params : dict) (s : server) (data : value) :
  out (api_data params s) = Ok data ->
  exists release d,
    data = VDict d /\
    dget "release" d = Some (VDict release) /\
    dget "type" d = dget "type" params /\
    (forall k, k <> "release" -> k <> "type" -> dget k d = None) /\
    (forall k, ~ In k translated_names -> dget k release = dget k params).
Proof.
  intros H.
  apply api_data_steps in H
    as (r1 & r2 & r3 & r4 & r5 & r6 & r7 &
        (T1 & _) & (T2 & _) & (T3 & _) & (T4 & _) &
        (T5 & _) & (T6 & _) & (T7 & _) & ->).
  exists r7. eexists. split; [reflexivity|].
  split; [|split; [|split]].
  - destruct (dget "type" params); reflexivity.
  - destruct (dget "type" params); reflexivity.
  - intros k K1 K2. apply String.eqb_neq in K1, K2.
    destruct (dget "type" params); simpl;
      rewrite ?(String.eqb_sym "type"), ?(String.eqb_sym "release");
      cbn; rewrite ?K1, ?K2; reflexivity.
  - intros k Hk. unfold translated_names in Hk. cbn [In] in Hk.
    rewrite T7, T6, T5, T4, T3, T2, T1 by (intros ->; tauto).
    reflexivity.
Qed.

(** X7.  [active] goes out as [isactive] with the same value, and
    [supports_component_acl] goes out as [disable_acl] with the negated
    truth value. *)
Theorem api_data_renames (params : dict) (s : server) (data : value) :
  out (api_data params s) = Ok data ->
  exists release,
    getitem data "release" = Ok (VDict release) /\
    (forall v,
       dget "active" params = Some v ->
       dget "isactive" release = Some v) /\
    (forall v,
       dget "supports_component_acl" params = Some v ->
       dget "disable_acl" release = Some (VBool (negb (truthy v)))).
Proof.
  intros H.
  apply api_data_steps in H
    as (r1 & r2 & r3 & r4 & r5 & r6 & r7 &
        (T1 & _) & (T2 & _) & (T3 & _ & V3 & _) & (T4 & _ & V4 & _) &
        (T5 & _) & (T6 & _) & (T7 & _) & ->).
  exists r7. split; [apply data_release|]. split.
  - intros v Hv. rewrite T7, T6, T5, T4 by discriminate.
    apply V3. now rewrite T2, T1 by discriminate.
  - intros v Hv. rewrite T7, T6, T5 by discriminate.
    apply V4. now rewrite T3, T2, T1 by discriminate.
Qed.

Lemma join_strs_concat (sep : string) (l : list value) (r : string) :
  join_strs sep l = Ok r ->
  exists ss, l = map VStr ss /\ r = String.concat sep ss.
Proof.
  revert r. induction l as [|x l IH]; intros r H.
  - injection H as <-. now exists [].
  - cbn [join_strs] in H. destruct x; try discriminate.
    destruct l as [|y l].
    + injection H as <-. now exists [s].
    + destruct (join_strs sep (y :: l)) as [r'|e] eqn:E; [|discriminate].
      injection H as <-.
      destruct (IH r' eq_refl) as (ss & Hss & ->).
      exists (s :: ss). split; [now rewrite Hss|].
      destruct ss; [discriminate|reflexivity].
Qed.

(** X8.  When [api_data] returns for params whose [blocker_flags] is a
    list, every flag is a string and the release mapping carries the
    flags joined with commas, in their order; the empty list goes out as
    the empty string. *)
Theorem api_data_joins_blocker_flags
  (params : dict) (s : server) (data : value) (flags : list value) :
  out (api_data params s) = Ok data ->
  dget "blocker_flags" params = Some (VList flags) ->
  exists release names,
    getitem data "release" = Ok (VDict release) /\
    flags = map VStr names /\
    dget "blocker_flags" release = Some (VStr (String.concat "," names)).
Proof.
  intros H Hflags.
  apply api_data_steps in H
    as (r1 & r2 & r3 & r4 & r5 & r6 & r7 &
        (T1 & _) & (T2 & _) & (T3 & _) & (T4 & _) &
        (T5 & _) & (T6 & _) & (T7 & V7 & _) & ->).
  destruct (V7 (VList flags)) as (joined & Hj & Hget).
  { now rewrite T6, T5, T4, T3, T2, T1 by discriminate. }
  unfold py_join in Hj. cbn [py_iter] in Hj.
  destruct (join_strs "," flags) as [r|e] eqn:E; [|discriminate].
  injection Hj as <-.
  apply join_strs_concat in E as (names & -> & ->).
  exists r7, names. split; [apply data_release|]. now split.
Qed.

(** X9.  The rule set on the wire: without [state_machine_rule_set] in
    the params, [state_machine_rule_set_id] is left as the params have
    it; a null or empty-string rule set goes out as a null id; any other
    rule set goes out as an integer id. *)
Theorem api_data_rule_set (params : dict) (s : server) (data : value) :
  out (api_data params s) = Ok data ->
  exists release,
    getitem data "release" = Ok (VDict release) /\
    (dget "state_machine_rule_set" params = None ->
     dget "state_machine_rule_set_id" release =
     dget "state_machine_rule_set_id" params) /\
    (forall v,
       dget "state_machine_rule_set" params = Some v ->
       v = VNone \/ v = VStr "" ->
       dget "state_machine_rule_set_id" release = Some VNone) /\
    (forall v,
       dget "state_machine_rule_set" params = Some v ->
       truthy v = true ->
       exists n, dget "state_machine_rule_set_id" release = Some (VInt n)).
Proof.
  intros H.
  apply api_data_steps in H
    as (r1 & r2 & r3 & r4 & r5 & r6 & r7 &
        (T1 & _) & (T2 & _) & (T3 & _) & (T4 & _) &
        (T5 & _) & (T6 & N6 & V6 & W6 & A6) & (T7 & _) & ->).
  assert (E5 : dget "state_machine_rule_set" r5 =
               dget "state_machine_rule_set" params)
    by (now rewrite T5, T4, T3, T2, T1 by discriminate).
  exists r7. split; [apply data_release|]. split; [|split].
  - intros Hnone. rewrite T7 by discriminate.
    rewrite Hnone in E5. rewrite (A6 E5).
    now rewrite T5, T4, T3, T2, T1 by discriminate.
  - intros v Hv Hfalsy. rewrite T7 by discriminate.
    apply (V6 v); [congruence|].
    now destruct Hfalsy as [->| ->].
  - intros v Hv Htruthy.
    destruct (W6 v) as (n & _ & Hn); [congruence | exact Htruthy |].
    exists n. now rewrite T7 by discriminate.
Qed.

Lemma product_version_loop_ok (s : server) (names acc l : list value) :
  out (product_version_loop names acc s) = Ok l ->
  exists ids, l = (acc ++ ids)%list /\ Forall2 (resolves s) names ids.
Proof.
  revert acc. induction names as [|name names IH]; intros acc H.
  - apply out_ret in H. subst l. exists []. split.
    + now rewrite app_nil_r.
    + constructor.
  - cbn [product_version_loop] in H.
    rewrite bind_client_get, bind_raise_for_status in H.
    destruct (http_error _) eqn:Hok; [discriminate|].
    rewrite bind_lift in H.
    destruct (getitem _ "id") as [id|e] eqn:Hid; [|discriminate].
    cbn [after out] in H.
    apply IH in H as (ids & -> & Hids).
    exists (id :: ids). split.
    + now rewrite <- app_assoc.
    + constructor; [now split | exact Hids].
Qed.

(** X10.  When [api_data] returns for params whose [product_versions]
    is a list of names, every name resolved on the service and
    [product_version_ids] is the list of their ids, in the order of the
    names. *)
Theorem api_data_resolves_product_versions
  (params : dict) (s : server) (data : value) (names : list value) :
  out (api_data params s) = Ok data ->
  dget "product_versions" params = Some (VList names) ->
  exists release ids,
    getitem data "release" = Ok (VDict release) /\
    Forall2 (resolves s) names ids /\
    dget "product_version_ids" release = Some (VList ids).
Proof.
  intros H Hpv.
  apply api_data_steps in H
    as (r1 & r2 & r3 & r4 & r5 & r6 & r7 &
        (T1 & _) & (T2 & _) & (T3 & _) & (T4 & _) &
        (T5 & _ & V5 & _) & (T6 & _) & (T7 & _) & ->).
  destruct (V5 (VList names)) as (ids & Hids & Hget).
  { now rewrite T4, T3, T2, T1 by discriminate. }
  unfold get_product_version_ids in Hids.
  rewrite bind_lift in Hids. cbn [py_iter] in Hids.
  apply M_bind_ok in Hids as (l & Hl & Hids).
  apply out_ret in Hids. subst ids.
  apply product_version_loop_ok in Hl as (ids & -> & Hres).
  exists r7, ids. split; [apply data_release|]. split; [exact Hres|].
  now rewrite T7, T6 by discriminate.
Qed.

(** X11.  A [product] that is absent or null adds no [product_id] to the
    release mapping; any other product goes out as the [product_id] that
    [get_product_id] returns for it. *)
Theorem api_data_product (params : dict) (s : server) (data : value) :
  out (api_data params s) = Ok data ->
  exists release,
    getitem data "release" = Ok (VDict release) /\
    ((dget "product" params = None \/
      dget "product" params = Some VNone) ->
     dget "product_id" release = dget "product_id" params) /\
    (forall name,
       dget "product" params = Some name -> name <> VNone ->
       exists id,
         out (get_product_id name s) = Ok id /\
         dget "product_id" release = Some id).
Proof.
  intros H.
  apply api_data_steps in H
    as (r1 & r2 & r3 & r4 & r5 & r6 & r7 &
        (T1 & _ & U1 & V1 & _) & (T2 & _) & (T3 & _) & (T4 & _) &
        (T5 & _) & (T6 & _) & (T7 & _) & ->).
  exists r7. split; [apply data_release|]. split.
  - intros Hp. rewrite T7, T6, T5, T4, T3, T2 by discriminate. now apply U1.
  - intros name Hp Hn. destruct (V1 name Hp Hn) as (id & Hid & Hget).
    exists id. split; [exact Hid|].
    now rewrite T7, T6, T5, T4, T3, T2 by discriminate.
Qed.

(** *** More on the write calls *)

(** X12.  Once the params are translated, [create_release] issues its
    POST after the reads of the translation and leaves the service in
    the state the POST produced; it returns only on status 201, and any
    other status, 200 included, raises [ValueError] with the body of the
    answer. *)
Theorem create_release_outcome (params : dict) (s : server) (data : value) :
  out (api_data params s) = Ok data ->
  create_release params s =
  {| out :=
       if status_code (fst (http_post s "api/v1/releases" data)) =? 201
       then Ok tt
       else Raise (ValueError
                     (json (fst (http_post s "api/v1/releases" data))));
     remote := snd (http_post s "api/v1/releases" data);
     calls := (calls (api_data params s) ++
               [Post "api/v1/releases" data])%list |}.
Proof.
  intros H. unfold create_release. rewrite run_bind, H.
  destruct (reads_only_api_data params s) as [-> _].
  rewrite run_bind. cbn [client_post out remote calls].
  destruct (status_code _ =? 201); reflexivity.
Qed.

Lemma format_d_raises (v : value) (e : exn) :
  format_d v = Raise e -> e = TypeError.
Proof. destruct v; simpl; intros H; try discriminate; now injection H. Qed.

(** X13.  Once the differences are translated, [edit_release] with an
    integer id issues its PUT on the path of that id after the reads of
    the translation, returns only on status 200 and raises [ValueError]
    with the body of the answer on any other status; with an id that is
    no integer it raises [TypeError] and issues no PUT. *)
Theorem edit_release_outcome
  (release_id : value) (differences : list difference)
  (s : server) (data : value) :
  out (api_data (params_of_differences differences) s) = Ok data ->
  (forall n,
     release_id = VInt n ->
     let url := ("api/v1/releases/" ++
                 NilZero.string_of_int (Z.to_int n))%string in
     edit_release release_id differences s =
     {| out :=
          if status_code (fst (http_put s url data)) =? 200
          then Ok tt
          else Raise (ValueError (json (fst (http_put s url data))));
        remote := snd (http_put s url data);
        calls := (calls (api_data (params_of_differences differences) s) ++
                  [Put url data])%list |}) /\
  (forall e,
     format_d release_id = Raise e ->
     edit_release release_id differences s =
     {| out := Raise TypeError;
        remote := s;
        calls := calls (api_data (params_of_differences differences) s) |}).
Proof.
  intros H. split.
  - intros n -> url. unfold edit_release. rewrite run_bind, H.
    destruct (reads_only_api_data (params_of_differences differences) s)
      as [-> _].
    rewrite bind_lift. cbn [format_d]. rewrite run_bind.
    cbn [client_put out remote calls]. fold url.
    destruct (status_code _ =? 200); reflexivity.
  - intros e He. unfold edit_release. rewrite run_bind, H.
    destruct (reads_only_api_data (params_of_differences differences) s)
      as [-> _].
    rewrite bind_lift, He. apply format_d_raises in He. subst e.
    unfold after. cbn [out remote calls]. now rewrite app_nil_r.
Qed.

Lemma dset_fresh (k : string) (v : value) (d : dict) :
  ~ In k (map fst d) -> dset k v d = (d ++ [(k, v)])%list.
Proof.
  induction d as [|[k' v'] d IH]; simpl; intros H; [reflexivity|].
  destruct (String.eqb k k') eqn:E.
  - apply String.eqb_eq in E. subst. tauto.
  - f_equal. apply IH. tauto.
Qed.

(** X14.  For differences with distinct keys, the params [edit_release]
    translates are the pairs (key, new value) of the differences, in
    their order: only changed fields, and never an old value. *)
Theorem params_of_differences_distinct (differences : list difference) :
  NoDup (map diff_key differences) ->
  params_of_differences differences =
  map (fun d => (diff_key d, diff_new d)) differences.
Proof.
  unfold params_of_differences.
  assert (G : forall acc,
             NoDup (map fst acc ++ map diff_key differences) ->
             fold_left
               (fun params d => dset (diff_key d) (diff_new d) params)
               differences acc =
             (acc ++ map (fun d => (diff_key d, diff_new d)) differences)%list).
  { induction differences as [|d differences IH]; intros acc Hnd.
    - simpl. now rewrite app_nil_r.
    - cbn [fold_left map].
      assert (Hfresh : ~ In (diff_key d) (map fst acc)).
      { intros Hin. apply NoDup_remove_2 in Hnd. apply Hnd.
        apply in_or_app. now left. }
      rewrite (dset_fresh _ _ _ Hfresh), IH.
      + now rewrite <- app_assoc.
      + rewrite map_app, <- app_assoc. exact Hnd. }
  intros Hnd. now apply (G []).
Qed.

(** *** More on the reconciliation *)

Lemma writes_reads_then (l : list call) (x : call) :
  filter is_write l = [] -> filter is_write (l ++ [x]) = filter is_write [x].
Proof. intros H. now rewrite filter_app, H. Qed.

(** What [create_release] leaves behind: nothing, or its one POST; only
    the POST can be followed by an exception, the [ValueError] of the
    answer. *)
Lemma create_release_summary (params : dict) (s : server) :
  (remote (create_release params s) = s /\
   writes (create_release params s) = []) \/
  (exists data,
     writes (create_release params s) = [Post "api/v1/releases" data] /\
     forall e,
       out (create_release params s) = Raise e -> exists b, e = ValueError b).
Proof.
  destruct (reads_only_api_data params s) as [Hr Hw].
  unfold create_release. rewrite run_bind.
  destruct (out (api_data params s)) as [data|e] eqn:E.
  - right. exists data. rewrite Hr, run_bind. unfold writes in *.
    cbn [client_post after out remote calls]. split.
    + destruct (negb _); cbn [calls];
        rewrite ?app_nil_r, filter_app, Hw; reflexivity.
    + intros e. destruct (negb _); cbn [out]; [|discriminate].
      intros H. injection H as <-. eauto.
  - left. unfold writes in *. cbn [remote calls]. now split.
Qed.

(** The same for [edit_release] and its one PUT. *)
Lemma edit_release_summary (release_id : value)
  (differences : list difference) (s : server) :
  (remote (edit_release release_id differences s) = s /\
   writes (edit_release release_id differences s) = []) \/
  (exists path data,
     writes (edit_release release_id differences s) = [Put path data] /\
     forall e,
       out (edit_release release_id differences s) = Raise e ->
       exists b, e = ValueError b).
Proof.
  destruct (reads_only_api_data (params_of_differences differences) s)
    as [Hr Hw].
  unfold edit_release. rewrite run_bind.
  destruct (out (api_data (params_of_differences differences) s))
    as [data|e] eqn:E.
  - rewrite Hr, bind_lift.
    destruct (format_d release_id) as [id|e] eqn:F.
    + right. exists ("api/v1/releases/" ++ id)%string, data.
      rewrite run_bind. unfold writes in *.
      cbn [client_put after out remote calls]. split.
      * destruct (negb _); cbn [calls];
          rewrite ?app_nil_r, filter_app, Hw; reflexivity.
      * intros e. destruct (negb _); cbn [out]; [|discriminate].
        intros H. injection H as <-. eauto.
    + left. unfold writes in *. cbn [after remote calls].
      rewrite app_nil_r. now split.
  - left. unfold writes in *. cbn [remote calls]. now split.
Qed.

(** The write phase of [ensure_release]: the run either never got to a
    write call, or it ends with a [create_release] or an [edit_release]
    whose state, writes and exception are those of the whole run. *)
Lemma ensure_release_write_phase (params : dict) (check_mode : bool)
  (s : server) :
  (remote (ensure_release params check_mode s) = s /\
   writes (ensure_release params check_mode s) = []) \/
  (exists w : run unit,
     (w = create_release (desired_params params) s \/
      exists release_id differences,
        w = edit_release release_id differences s) /\
     remote (ensure_release params check_mode s) = remote w /\
     writes (ensure_release params check_mode s) = writes w /\
     forall e,
       out (ensure_release params check_mode s) = Raise e ->
       out w = Raise e).
Proof.
  unfold ensure_release. rewrite bind_lift.
  destruct (dict_getitem (desired_params params) "name") as [name|e];
    [|left; split; reflexivity].
  rewrite run_bind.
  destruct (get_release_run name s) as [Hr Hc]. rewrite Hr, Hc.
  destruct (out (get_release name s)) as [release|e];
    [|left; split; reflexivity].
  destruct (release_missing release).
  - rewrite bind_lift.
    destruct (prepare_diff_data release _) as [d|e];
      [|left; split; reflexivity].
    destruct check_mode; cbn [negb].
    + left. rewrite bind_ret. split; reflexivity.
    + right. exists (create_release (desired_params params) s).
      split; [now left|]. rewrite run_bind.
      destruct (out (create_release _ s)) eqn:E; unfold writes;
        cbn [after out remote calls filter is_write app];
        rewrite ?app_nil_r; repeat split; try discriminate.
      intros e' H. now injection H as <-.
  - destruct (diff_settings _ _) as [|d0 differences];
      [left; split; reflexivity|].
    rewrite bind_lift.
    destruct (prepare_diff_data _ _) as [d|e];
      [|left; split; reflexivity].
    destruct check_mode; cbn [negb].
    + left. rewrite bind_ret. split; reflexivity.
    + rewrite run_bind, bind_lift.
      destruct (with_product_versions _ _) as [differences'|e];
        [|left; split; reflexivity].
      rewrite bind_lift.
      destruct (dict_getitem _ "id") as [release_id|e];
        [|left; split; reflexivity].
      right. exists (edit_release release_id differences' s).
      split; [right; eauto|].
      destruct (out (edit_release _ _ s)) eqn:E; unfold writes;
        cbn [after out remote calls filter is_write app];
        rewrite ?app_nil_r; repeat split; try discriminate.
      intros e' H. now injection H as <-.
Qed.

(** X15.  One run of [ensure_release] issues at most one write call: no
    write, or the POST that creates the release, or one PUT. *)
Theorem ensure_release_writes_once (params : dict) (check_mode : bool)
  (s : server) :
  writes (ensure_release params check_mode s) = [] \/
  (exists data,
     writes (ensure_release params check_mode s) =
     [Post "api/v1/releases" data]) \/
  (exists path data,
     writes (ensure_release params check_mode s) = [Put path data]).
Proof.
  destruct (ensure_release_write_phase params check_mode s)
    as [[_ Hw]|(w & Hwho & _ & Hw & _)]; [now left|].
  rewrite Hw. destruct Hwho as [->|(release_id & differences & ->)].
  - destruct (create_release_summary (desired_params params) s)
      as [[_ H]|(data & H & _)]; [now left|].
    right. left. eauto.
  - destruct (edit_release_summary release_id differences s)
      as [[_ H]|(path & data & H & _)]; [now left|].
    right. right. eauto.
Qed.

(** X16.  When [ensure_release] raises anything but a [ValueError], it
    has issued no write call and the service is as it was: the only
    exception that can follow a write is the [ValueError] of a create or
    update the service did not acknowledge. *)
Theorem ensure_release_raises_before_write
  (params : dict) (check_mode : bool) (s : server) (e : exn) :
  out (ensure_release params check_mode s) = Raise e ->
  (forall b, e <> ValueError b) ->
  remote (ensure_release params check_mode s) = s /\
  writes (ensure_release params check_mode s) = [].
Proof.
  intros Hout Hno.
  destruct (ensure_release_write_phase params check_mode s)
    as [H|(w & Hwho & Hr & Hw & He)]; [exact H|].
  rewrite Hr, Hw. apply He in Hout.
  destruct Hwho as [->|(release_id & differences & ->)].
  - destruct (create_release_summary (desired_params params) s)
      as [H|(data & _ & H)]; [exact H|].
    destruct (H e Hout) as [b ->]. now destruct (Hno b).
  - destruct (edit_release_summary release_id differences s)
      as [H|(path & data & _ & H)]; [exact H|].
    destruct (H e Hout) as [b ->]. now destruct (Hno b).
Qed.

Lemma non_null_keys (params : dict) (k : string) :
  (forall v, In (k, v) params -> v = VNone) ->
  ~ In k (map fst (non_null params)).
Proof.
  intros H Hin. apply in_map_iff in Hin as ([k' v] & Hk & Hin).
  simpl in Hk. subst k'. apply filter_In in Hin as [Hin Hv].
  apply H in Hin. subst v. discriminate.
Qed.

Lemma dget_desired_params (params : dict) (k : string) :
  k <> "state_machine_rule_set" ->
  dget k (desired_params params) = dget k (non_null params).
Proof.
  intros Hk. unfold desired_params.
  destruct (py_eqb _ _); [|reflexivity].
  now apply dget_dset_other.
Qed.

Lemma dget_in (k : string) (v : value) (d : dict) :
  In (k, v) d -> dget k d <> None.
Proof.
  induction d as [|[k' v'] d IH]; [contradiction|].
  simpl. destruct (String.eqb k k') eqn:E; [discriminate|].
  intros [Heq|Hin]; [|now apply IH].
  injection Heq as -> _. now rewrite String.eqb_refl in E.
Qed.

Lemma prepare_diff_data_named (before : option dict) (desired : dict)
  (name : value) :
  dget "name" desired = Some name ->
  prepare_diff_data before desired =
  Ok (task_diff_data before desired name "release"
        ["pelc_product_version_name"; "state_machine_rule_set";
         "zstream_target_release"]
        ["is_async"; "is_deferred"]).
Proof.
  intros H. unfold prepare_diff_data, dict_getitem. now rewrite H.
Qed.

(** X17.  Params without a name, or with a null name, make
    [ensure_release] raise [KeyError] 'name' before it issues any
    request. *)
Theorem ensure_release_needs_name
  (params : dict) (check_mode : bool) (s : server) :
  (forall v, In ("name", v) params -> v = VNone) ->
  ensure_release params check_mode s =
  {| out := Raise (KeyError (VStr "name")); remote := s; calls := [] |}.
Proof.
  intros H. unfold ensure_release. rewrite bind_lift.
  unfold dict_getitem.
  rewrite dget_desired_params by discriminate.
  now rewrite (dget_none_keys _ _ (non_null_keys _ _ H)).
Qed.

(** X18.  A null-valued param is as good as no param: with or without
    it, wherever it stands in the params, [ensure_release] makes the
    same run. *)
Theorem ensure_release_ignores_null
  (front back : dict) (k : string) (check_mode : bool) (s : server) :
  ensure_release (front ++ (k, VNone) :: back)%list check_mode s =
  ensure_release (front ++ back)%list check_mode s.
Proof.
  assert (E : non_null (front ++ (k, VNone) :: back)%list =
              non_null (front ++ back)%list).
  { unfold non_null. now rewrite !filter_app. }
  unfold ensure_release, desired_params. now rewrite E.
Qed.

(** X19.  When no release of that name is listed, [ensure_release]
    reports changed with the one line 'created NAME' and the diff of
    nothing against the desired params; in check mode that is all,
    after the list query; otherwise [create_release] runs on the desired
    params (null values dropped, an empty rule set as null) and the run
    returns the report if it returns and raises what it raises. *)
Theorem ensure_release_creates
  (params : dict) (s : server) (name : value) :
  dget "name" (desired_params params) = Some name ->
  out (get_release name s) = Ok None ->
  let report :=
    {| changed := true;
       stdout_lines := ["created " ++ py_str name];
       diff := Some
         (task_diff_data None (desired_params params) name "release"
            ["pelc_product_version_name"; "state_machine_rule_set";
             "zstream_target_release"]
            ["is_async"; "is_deferred"]) |} in
  ensure_release params true s =
  {| out := Ok report; remote := s; calls := [releases_query name] |} /\
  ensure_release params false s =
  {| out :=
       match out (create_release (desired_params params) s) with
       | Ok _ => Ok report
       | Raise e => Raise e
       end;
     remote := remote (create_release (desired_params params) s);
     calls := releases_query name ::
              calls (create_release (desired_params params) s) |}.
Proof.
  intros Hname Hrel report.
  destruct (get_release_run name s) as [Hr Hc].
  unfold ensure_release. rewrite !bind_lift.
  unfold dict_getitem at 1 3. rewrite Hname.
  rewrite !run_bind, Hrel, Hr, Hc. cbn [release_missing].
  rewrite !bind_lift, (prepare_diff_data_named _ _ _ Hname).
  cbn [negb]. split.
  - now rewrite bind_ret.
  - rewrite run_bind. fold report.
    destruct (out (create_release _ s)); unfold after;
      cbn [out remote calls app]; rewrite ?app_nil_r; reflexivity.
Qed.

(** X20.  An update of a release when the desired params carry no
    [product_versions]: the preview reports the change, the run that
    applies it raises [KeyError] 'product_versions' after the list
    query, before any translation or write. *)
Theorem ensure_release_update_needs_product_versions
  (params : dict) (s : server) (name : value) (release : dict) :
  dget "name" (desired_params params) = Some name ->
  out (get_release name s) = Ok (Some release) ->
  diff_settings release (desired_params params) <> [] ->
  dget "product_versions" (desired_params params) = None ->
  (exists report,
     out (ensure_release params true s) = Ok report /\
     changed report = true) /\
  ensure_release params false s =
  {| out := Raise (KeyError (VStr "product_versions"));
     remote := s;
     calls := [releases_query name] |}.
Proof.
  intros Hname Hrel Hdiff Hpv.
  destruct (get_release_run name s) as [Hr Hc].
  pose proof (get_release_some _ _ _ Hrel) as Hnn.
  assert (Hkeys : existsb (String.eqb "product_versions")
                    (map diff_key
                       (diff_settings release (desired_params params))) =
                  false).
  { destruct (existsb _ _) eqn:E; [|reflexivity].
    apply existsb_exists in E as (k & Hin & Hk).
    apply String.eqb_eq in Hk. subst k.
    apply diff_settings_keys in Hin.
    apply in_map_iff in Hin as ([k v] & Hk & Hin). simpl in Hk. subst k.
    now apply dget_in in Hin. }
  unfold ensure_release. rewrite !bind_lift.
  unfold dict_getitem at 1 3. rewrite Hname.
  rewrite !run_bind, Hrel, Hr, Hc.
  destruct release as [|kv release]; [congruence|].
  cbn [release_missing].
  destruct (diff_settings (kv :: release) (desired_params params))
    as [|d0 differences] eqn:Ed; [congruence|].
  rewrite !bind_lift, (prepare_diff_data_named _ _ _ Hname).
  cbn [negb]. split.
  - rewrite bind_ret. eexists. split; reflexivity.
  - rewrite run_bind, bind_lift. unfold with_product_versions.
    rewrite Hkeys. cbn [negb]. unfold dict_getitem. rewrite Hpv.
    reflexivity.
Qed.

(** *** The module entry point *)

Context {users : Users}.

Ltac run_module_steps :=
  unfold run_module;
  cbv [bind M_monad try_except after ret lift out remote calls].

(** X21.  Without check mode, and in check mode when nothing would
    change, or the params name no program manager, or the strict user
    check is switched off, [run_module] is [ensure_release] and nothing
    more: the same requests and final state, [exit_json] with the result,
    [fail_json] with 'program_manager LOGIN account not found',
    changed false and rc 1 for a [ProgramManagerNotFoundError], and any
    other exception uncaught. *)
Theorem run_module_without_user_check
  (params : dict) (check_mode : bool) (strict : outcome bool) (s : server) :
  (check_mode = false \/
   forall r,
     out (ensure_release params check_mode s) = Ok r ->
     changed r = false \/
     exists program_manager,
       dget "program_manager" params = Some program_manager /\
       (truthy program_manager = false \/ strict = Ok false)) ->
  run_module params check_mode strict s =
  {| out := exit_of (out (ensure_release params check_mode s));
     remote := remote (ensure_release params check_mode s);
     calls := calls (ensure_release params check_mode s) |}.
Proof.
  intros H. run_module_steps.
  destruct (ensure_release params check_mode s) as [o s' l].
  cbn [out remote calls] in H.
  destruct o as [r|e].
  - cbn [exit_of]. destruct H as [->|H].
    + cbn [andb]. now rewrite !app_nil_r.
    + destruct (H r eq_refl) as [Hc|(pm & Hpm & Hwhy)].
      * rewrite Hc, andb_false_r. now rewrite !app_nil_r.
      * destruct (check_mode && changed r); [|now rewrite !app_nil_r].
        unfold dict_getitem. rewrite Hpm.
        destruct Hwhy as [->| ->]; [now rewrite !app_nil_r|].
        destruct (truthy pm); now rewrite !app_nil_r.
  - destruct e; cbn [exit_of]; rewrite ?app_nil_r; reflexivity.
Qed.

Lemma run_module_no_check_mode
  (params : dict) (strict : outcome bool) (s : server) :
  run_module params false strict s =
  {| out := exit_of (out (ensure_release params false s));
     remote := remote (ensure_release params false s);
     calls := calls (ensure_release params false s) |}.
Proof.
  run_module_steps.
  destruct (ensure_release params false s) as [o s' l].
  destruct o as [r|e].
  - cbn [exit_of andb]. now rewrite !app_nil_r.
  - destruct e; cbn [exit_of]; rewrite ?app_nil_r; reflexivity.
Qed.

(** A missing program manager is found out before any write. *)
Lemma ensure_release_program_manager_not_found
  (params : dict) (check_mode : bool) (s : server) (login : string) :
  out (ensure_release params check_mode s) =
  Raise (ProgramManagerNotFoundError login) ->
  remote (ensure_release params check_mode s) = s /\
  writes (ensure_release params check_mode s) = [].
Proof.
  intros Hout.
  destruct (ensure_release_write_phase params check_mode s)
    as [H|(w & Hwho & Hr & Hw & He)]; [exact H|].
  rewrite Hr, Hw. apply He in Hout.
  destruct Hwho as [->|(release_id & differences & ->)].
  - destruct (create_release_summary (desired_params params) s)
      as [H|(data & _ & H)]; [exact H|].
    destruct (H _ Hout) as [b Hb]. discriminate Hb.
  - destruct (edit_release_summary release_id differences s)
      as [H|(path & data & _ & H)]; [exact H|].
    destruct (H _ Hout) as [b Hb]. discriminate Hb.
Qed.

(** X22.  A run of the module without check mode that ends in
    [fail_json] reports changed false and rc 1 with the message
    'program_manager LOGIN account not found', has issued no write call
    and has left the service as it was. *)
Theorem run_module_failure_changes_nothing
  (params : dict) (strict : outcome bool) (s : server)
  (msg : string) (changed_flag : bool) (rc : Z) :
  out (run_module params false strict s) =
  Ok (fail_json msg changed_flag rc) ->
  (exists login, msg = account_not_found login) /\
  changed_flag = false /\ rc = 1 /\
  remote (run_module params false strict s) = s /\
  writes (run_module params false strict s) = [].
Proof.
  rewrite run_module_no_check_mode. unfold writes. cbn [out remote calls].
  intros H.
  destruct (out (ensure_release params false s)) as [r|e] eqn:E;
    [discriminate|].
  destruct e; try discriminate. cbn [exit_of] in H.
  injection H as <- <- <-.
  apply ensure_release_program_manager_not_found in E as [Hr Hw].
  repeat split; eauto.
Qed.

(** X23.  In check mode, when [ensure_release] reports a change, the
    params name a program manager and the strict user check is switched
    on, [run_module] looks the program manager up after the preview:
    a user that is found lets the module exit with the result, a
    [UserNotFoundError] ends it with [fail_json], changed false and
    rc 1, and any other exception is not caught. *)
Theorem run_module_strict_user_check
  (params : dict) (s : server) (r : result) (program_manager : value) :
  out (ensure_release params true s) = Ok r ->
  changed r = true ->
  dget "program_manager" params = Some program_manager ->
  truthy program_manager = true ->
  run_module params true (Ok true) s =
  {| out :=
       match out (get_user program_manager true s) with
       | Ok _ => Ok (exit_json r)
       | Raise (UserNotFoundError login) =>
           Ok (fail_json (account_not_found login) false 1)
       | Raise e => Raise e
       end;
     remote := remote (get_user program_manager true s);
     calls := (calls (ensure_release params true s) ++
               calls (get_user program_manager true s))%list |}.
Proof.
  intros Hout Hc Hpm Ht.
  destruct (ensure_release_modes params s) as ((Hr & _) & _).
  revert Hout Hr. run_module_steps.
  destruct (ensure_release params true s) as [o s' l].
  cbn [out remote calls]. intros -> ->.
  rewrite Hc. cbn [andb]. unfold dict_getitem. rewrite Hpm, Ht.
  destruct (get_user program_manager true s) as [o u l'].
  destruct o as [user|e].
  - now rewrite !app_nil_r.
  - destruct e; rewrite ?app_nil_r; reflexivity.
Qed.

(** *** The exceptions of a preview *)

Lemma outcome_bind_raise {A B} (c : outcome A) (k : A -> outcome B)
  (e : exn) :
  bind c k = Raise e -> c = Raise e \/ exists a, c = Ok a /\ k a = Raise e.
Proof.
  destruct c as [a|e']; intros H; cbv [bind outcome_monad] in H.
  - right. exists a. now split.
  - left. now injection H as <-.
Qed.

Lemma getitem_plain (v : value) (k : string) (e : exn) :
  getitem v k = Raise e -> plain_error e.
Proof.
  destruct v; simpl; try (intros H; injection H as <-; exact I).
  destruct (dget k d); [discriminate|].
  intros H. injection H as <-. exact I.
Qed.

Lemma dict_getitem_plain (d : dict) (k : string) (e : exn) :
  dict_getitem d k = Raise e -> plain_error e.
Proof.
  unfold dict_getitem. destruct (dget k d); [discriminate|].
  intros H. injection H as <-. exact I.
Qed.

Lemma py_iter_plain (v : value) (e : exn) :
  py_iter v = Raise e -> plain_error e.
Proof.
  destruct v; simpl; intros H; try discriminate; now injection H as <-.
Qed.

Lemma py_len_plain (v : value) (e : exn) :
  py_len v = Raise e -> plain_error e.
Proof.
  destruct v; simpl; intros H; try discriminate; now injection H as <-.
Qed.

Lemma getitem0_plain (v : value) (e : exn) :
  getitem0 v = Raise e -> plain_error e.
Proof.
  destruct v as [| | |s|l|d]; simpl; intros H;
    try (injection H as <-; exact I).
  - destruct s; [|discriminate]. now injection H as <-.
  - destruct l; [|discriminate]. now injection H as <-.
Qed.

Lemma slice10_plain (v : value) (e : exn) :
  slice10 v = Raise e -> plain_error e.
Proof.
  destruct v; simpl; intros H; try discriminate; now injection H as <-.
Qed.

Lemma update_pair_plain (index : nat) (d : dict) (element : value)
  (e : exn) :
  update_pair index d element = Raise e -> plain_error e.
Proof.
  unfold update_pair.
  destruct (py_iter element) as [[|k [|v [|x l]]]|e'];
    try (intros H; injection H as <-; exact I).
  destruct k; intros H; try discriminate; now injection H as <-.
Qed.

Lemma update_pairs_plain (elements : list value) (index : nat) (d : dict)
  (e : exn) :
  update_pairs index d elements = Raise e -> plain_error e.
Proof.
  revert index d. induction elements as [|x l IH]; intros index d;
    [discriminate|].
  cbn [update_pairs]. intros H.
  apply outcome_bind_raise in H as [H|(d' & _ & H)].
  - now apply update_pair_plain in H.
  - now apply IH in H.
Qed.

Lemma py_update_plain (d : dict) (v : value) (e : exn) :
  py_update d v = Raise e -> plain_error e.
Proof.
  destruct v; simpl; intros H; try discriminate;
    try (now injection H as <-); now apply update_pairs_plain in H.
Qed.

Lemma relationship_plain (v : value) (k : string) (e : exn) :
  relationship v k = Raise e -> plain_error e.
Proof.
  unfold relationship. intros H.
  apply outcome_bind_raise in H as [H|(rels & _ & H)];
    now apply getitem_plain in H.
Qed.

Lemma flatten_plain (v : value) (k : string) (e : exn) :
  flatten v k = Raise e -> plain_error e.
Proof.
  unfold flatten. destruct (truthy v); [apply getitem_plain|discriminate].
Qed.

Lemma map_outcome_plain {A B} (f : A -> outcome B) (l : list A) (e : exn) :
  (forall a e', f a = Raise e' -> plain_error e') ->
  map_outcome f l = Raise e -> plain_error e.
Proof.
  intros Hf. induction l as [|a l IH]; [discriminate|].
  cbn [map_outcome]. intros H.
  apply outcome_bind_raise in H as [H|(b & _ & H)]; [now apply Hf in H|].
  apply outcome_bind_raise in H as [H|(bs & _ & H)]; [now apply IH|].
  discriminate.
Qed.

Create HintDb plain.

#[local] Hint Resolve getitem_plain dict_getitem_plain py_iter_plain
  py_len_plain getitem0_plain slice10_plain py_update_plain
  relationship_plain flatten_plain : plain.

Lemma normalize_release_plain (release_data : value) (e : exn) :
  normalize_release release_data = Raise e -> plain_error e.
Proof.
  unfold normalize_release. intros H.
  do 12 (apply outcome_bind_raise in H as [H|(? & _ & H)];
         [eauto with plain|]).
  apply outcome_bind_raise in H as [H|(? & _ & H)].
  { apply map_outcome_plain in H; [exact H|]. eauto with plain. }
  do 2 (apply outcome_bind_raise in H as [H|(? & _ & H)];
        [eauto with plain|]).
  destruct (negb _); [|discriminate].
  apply outcome_bind_raise in H as [H|(? & _ & H)];
    [eauto with plain | discriminate].
Qed.

(** The exceptions of [get_release] are those of requests and of the
    subscripts, [len] and slices on the answer, and its own
    [ValueError]. *)
Lemma get_release_plain (name : value) (s : server) (e : exn) :
  out (get_release name s) = Raise e -> plain_error e.
Proof.
  unfold get_release. rewrite bind_client_get, bind_raise_for_status.
  destruct (http_error _); [intros H; now injection H as <-|].
  rewrite bind_lift.
  destruct (getitem _ "data") as [results|e'] eqn:E;
    [|intros H; injection H as <-; eauto with plain].
  destruct (negb (truthy results)); [discriminate|].
  rewrite bind_lift.
  destruct (py_len results) as [n|e'] eqn:En;
    [|intros H; injection H as <-; eauto with plain].
  destruct (1 <? n)%nat; [intros H; now injection H as <-|].
  rewrite bind_lift.
  destruct (getitem0 results) as [release_data|e'] eqn:E0;
    [|intros H; injection H as <-; eauto with plain].
  rewrite bind_lift.
  destruct (normalize_release release_data) as [release|e'] eqn:Er;
    [discriminate|].
  intros H. injection H as <-. now apply normalize_release_plain in Er.
Qed.

(** X24.  In check mode [ensure_release] never raises
    [ProgramManagerNotFoundError] nor [UserNotFoundError]: a preview
    does not look the program manager up, and what it raises is an
    exception of the list query or a [KeyError]. *)
Theorem preview_raises_no_user_error
  (params : dict) (s : server) (e : exn) :
  out (ensure_release params true s) = Raise e -> plain_error e.
Proof.
  unfold ensure_release. rewrite bind_lift.
  destruct (dict_getitem (desired_params params) "name") as [name|e'] eqn:E;
    [|intros H; injection H as <-; eauto with plain].
  rewrite run_bind.
  destruct (out (get_release name s)) as [release|e'] eqn:Er;
    [|intros H; injection H as <-; now apply get_release_plain in Er].
  cbn [after out].
  destruct (release_missing release).
  - rewrite bind_lift.
    destruct (prepare_diff_data release _) as [d|e'] eqn:Ed.
    + cbn [negb]. rewrite bind_ret. discriminate.
    + intros H. injection H as <-. unfold prepare_diff_data in Ed.
      apply outcome_bind_raise in Ed as [Ed|(? & _ & Ed)];
        [eauto with plain | discriminate].
  - destruct (diff_settings _ _) as [|d0 differences]; [discriminate|].
    rewrite bind_lift.
    destruct (prepare_diff_data _ _) as [d|e'] eqn:Ed.
    + cbn [negb]. rewrite bind_ret. discriminate.
    + intros H. injection H as <-. unfold prepare_diff_data in Ed.
      apply outcome_bind_raise in Ed as [Ed|(? & _ & Ed)];
        [eauto with plain | discriminate].
Qed.

(** *** The list query and the desired params *)

(** X25.  Whatever the service answers, [get_release] issues the list
    query and nothing else and leaves the service as it was; an error
    status raises the [HTTPError] of the query, and an answer whose
    [data] is empty or null (an empty list, null, an empty object or
    string, zero, false) means there is no release. *)
Theorem get_release_single_query (name : value) (s : server) :
  remote (get_release name s) = s /\
  calls (get_release name s) = [releases_query name] /\
  (http_error (http_get s "api/v1/releases" [("filter[name]", name)])
   = true ->
   out (get_release name s) =
   Raise (HTTPError "api/v1/releases"
            (status_code
               (http_get s "api/v1/releases" [("filter[name]", name)])))) /\
  (forall results,
     http_error (http_get s "api/v1/releases" [("filter[name]", name)])
     = false ->
     getitem (json (http_get s "api/v1/releases" [("filter[name]", name)]))
       "data" = Ok results ->
     truthy results = false ->
     out (get_release name s) = Ok None).
Proof.
  destruct (get_release_run name s) as [Hr Hc].
  split; [exact Hr|]. split; [exact Hc|]. split.
  - intros Hbad. unfold get_release.
    now rewrite bind_client_get, bind_raise_for_status, Hbad.
  - intros results Hok Hdata Hfalsy. unfold get_release.
    now rewrite bind_client_get, bind_raise_for_status, Hok, bind_lift,
      Hdata, Hfalsy.
Qed.

Lemma in_dset_inv (k k' : string) (v v' : value) (d : dict) :
  In (k, v) (dset k' v' d) -> (k = k' /\ v = v') \/ In (k, v) d.
Proof.
  induction d as [|[k0 v0] d IH]; simpl.
  - intros [H|[]]. injection H as <- <-. now left.
  - destruct (String.eqb k' k0) eqn:E.
    + apply String.eqb_eq in E. subst k0.
      intros [H|H]; [injection H as <- <-; now left | right; now right].
    + intros [H|H]; [right; now left|].
      apply IH in H as [H|H]; [now left | right; now right].
Qed.

(** X26.  After the pre-processing of [ensure_release] the only desired
    field that can be null is [state_machine_rule_set]; every other
    desired field is a non-null param, with the value the params give
    it. *)
Theorem desired_params_null_only_rule_set
  (params : dict) (k : string) (v : value) :
  In (k, v) (desired_params params) ->
  (k = "state_machine_rule_set" /\ v = VNone) \/
  (In (k, v) params /\ v <> VNone).
Proof.
  assert (Hnn : forall k v,
             In (k, v) (non_null params) -> In (k, v) params /\ v <> VNone).
  { intros k0 v0 H. apply filter_In in H as [Hin Hv]. split; [exact Hin|].
    intros ->. discriminate. }
  unfold desired_params. destruct (py_eqb _ _).
  - intros H. apply in_dset_inv in H as [H|H]; [now left|].
    right. now apply Hnn.
  - intros H. right. now apply Hnn.
Qed.

End More_properties.

(** ** More concrete runs *)

Import Cases.

Ltac distinct :=
  repeat (constructor; [simpl; intuition discriminate|]); constructor.

Ltac member := repeat first [left; reflexivity | right].

(** The product of the listed release is its short name, its missing
    program manager is null. *)
Lemma normalize_release_scalar_relationships_witness :
  (exists v,
     getitem (VDict [("id", VInt 104); ("short_name", VStr "RHCEPH")])
       "short_name" = Ok v /\
     dget "product" listed = Some v) /\
  dget "program_manager" listed = Some VNone.
Proof.
  split.
  - apply (normalize_release_scalar_relationships raw_release listed
             "product" "short_name"
             (VDict [("id", VInt 104); ("short_name", VStr "RHCEPH")])).
    + reflexivity.
    + member.
    + reflexivity.
    + reflexivity.
  - apply (normalize_release_scalar_relationships raw_release listed
             "program_manager" "login_name" VNone).
    + reflexivity.
    + member.
    + reflexivity.
    + reflexivity.
Defined.

Lemma normalize_release_active_witness :
  dget "is_active" listed = None /\
  exists v,
    dget "is_active" attributes = Some v /\ dget "active" listed = Some v.
Proof.
  apply (normalize_release_active raw_release listed attributes).
  - reflexivity.
  - reflexivity.
  - distinct.
Defined.

(** The timestamp of the listed release is cut to its day. *)
Lemma normalize_release_ship_date_witness :
  exists day rest,
    dget "ship_date" listed = Some (VStr day) /\
    "2020-01-31T00:00:00Z" = (day ++ rest)%string /\
    String.length day = 10%nat.
Proof.
  destruct (normalize_release_ship_date raw_release listed attributes)
    as (ship_date & Hsd & _ & Hstr).
  - reflexivity.
  - reflexivity.
  - distinct.
  - injection Hsd as <-.
    exact (Hstr "2020-01-31T00:00:00Z" eq_refl).
Defined.

Lemma normalize_release_attributes_witness :
  dget "description" listed = Some (VStr "Red Hat Ceph Storage 4.0") /\
  exists id,
    getitem raw_release "id" = Ok id /\ dget "id" listed = Some id.
Proof.
  destruct (normalize_release_attributes raw_release listed attributes)
    as [Hcarry Hid].
  - reflexivity.
  - reflexivity.
  - distinct.
  - split.
    + apply Hcarry; [|reflexivity].
      unfold normalized_names. simpl. intuition discriminate.
    + apply Hid. reflexivity.
Defined.

Lemma api_data_drops_canonical_names_witness :
  exists release,
    getitem wire "release" = Ok (VDict release) /\
    forall k, In k canonical_names -> dget k release = None.
Proof.
  apply (api_data_drops_canonical_names (client := demo_client)
           full_params store wire).
  reflexivity.
Defined.

Lemma api_data_passes_other_params_witness :
  exists release d,
    wire = VDict d /\
    dget "release" d = Some (VDict release) /\
    dget "type" d = dget "type" full_params /\
    (forall k, k <> "release" -> k <> "type" -> dget k d = None) /\
    (forall k, ~ In k translated_names ->
               dget k release = dget k full_params).
Proof.
  apply (api_data_passes_other_params (client := demo_client)
           full_params store wire).
  reflexivity.
Defined.

Lemma api_data_renames_witness :
  exists release,
    getitem wire "release" = Ok (VDict release) /\
    (forall v,
       dget "active" full_params = Some v ->
       dget "isactive" release = Some v) /\
    (forall v,
       dget "supports_component_acl" full_params = Some v ->
       dget "disable_acl" release = Some (VBool (negb (truthy v)))).
Proof.
  apply (api_data_renames (client := demo_client) full_params store wire).
  reflexivity.
Defined.

Lemma api_data_joins_blocker_flags_witness :
  exists release names,
    getitem wire "release" = Ok (VDict release) /\
    [VStr "ceph-4.0"; VStr "devel_ack"] = map VStr names /\
    dget "blocker_flags" release = Some (VStr (String.concat "," names)).
Proof.
  apply (api_data_joins_blocker_flags (client := demo_client)
           full_params store wire).
  - reflexivity.
  - reflexivity.
Defined.

Lemma api_data_rule_set_witness :
  dget "state_machine_rule_set_id" wire_release = Some VNone.
Proof.
  destruct (api_data_rule_set (client := demo_client) full_params store wire)
    as (release & Hrel & _ & Hfalsy & _).
  - reflexivity.
  - injection Hrel as <-. apply (Hfalsy (VStr "")).
    + reflexivity.
    + now right.
Defined.

Lemma api_data_resolves_product_versions_witness :
  exists release ids,
    getitem wire "release" = Ok (VDict release) /\
    Forall2 (resolves store)
      [VStr "RHEL-7-RHCEPH-4.0"; VStr "RHCEPH-4.0-RHEL-8"] ids /\
    dget "product_version_ids" release = Some (VList ids).
Proof.
  apply (api_data_resolves_product_versions (client := demo_client)
           full_params store wire).
  - reflexivity.
  - reflexivity.
Defined.

Lemma api_data_product_witness :
  exists id,
    out (get_product_id (VStr "RHCEPH") store) = Ok id /\
    dget "product_id" wire_release = Some id.
Proof.
  destruct (api_data_product (client := demo_client) full_params store wire)
    as (release & Hrel & _ & Hname).
  - reflexivity.
  - injection Hrel as <-. apply Hname.
    + reflexivity.
    + discriminate.
Defined.

(** Scenario A: the create is acknowledged with 201. *)
Lemma create_release_outcome_witness :
  create_release scenario_a empty_errata =
  {| out := Ok tt;
     remote := empty_errata;
     calls := [Get "product_versions/RHCEPH-4.0-RHEL-8.json" [];
               Post "api/v1/releases" wire_a] |}.
Proof.
  exact (create_release_outcome (client := demo_client)
           scenario_a empty_errata wire_a eq_refl).
Defined.

(** Scenario C: the update goes to the path of the id; an id given as a
    string stops the edit before its PUT. *)
Lemma edit_release_outcome_witness :
  edit_release (VInt 1017) differences_c errata =
  {| out := Ok tt;
     remote := errata;
     calls := [Get "product_versions/RHCEPH-4.0-RHEL-8.json" [];
               Get "product_versions/RHEL-7-RHCEPH-4.0.json" [];
               Put "api/v1/releases/1017" payload_c] |} /\
  edit_release (VStr "1017") differences_c errata =
  {| out := Raise TypeError;
     remote := errata;
     calls := [Get "product_versions/RHCEPH-4.0-RHEL-8.json" [];
               Get "product_versions/RHEL-7-RHCEPH-4.0.json" []] |}.
Proof.
  split.
  - exact (proj1 (edit_release_outcome (client := demo_client)
                    (VInt 1017) differences_c errata payload_c eq_refl)
             1017 eq_refl).
  - exact (proj2 (edit_release_outcome (client := demo_client)
                    (VStr "1017") differences_c errata payload_c eq_refl)
             TypeError eq_refl).
Defined.

Lemma params_of_differences_distinct_witness :
  params_of_differences differences_c =
  [("active", VBool false);
   ("product_versions",
     VList [VStr "RHCEPH-4.0-RHEL-8"; VStr "RHEL-7-RHCEPH-4.0"])].
Proof.
  apply (params_of_differences_distinct differences_c). distinct.
Defined.

(** Scenario D: the unknown program manager stops the run before any
    write. *)
Lemma ensure_release_raises_before_write_witness :
  remote (ensure_release scenario_d false errata) = errata /\
  writes (ensure_release scenario_d false errata) = [].
Proof.
  apply (ensure_release_raises_before_write (client := demo_client)
           scenario_d false errata
           (ProgramManagerNotFoundError "ghost@redhat.com")).
  - reflexivity.
  - intros b H. discriminate H.
Defined.

Lemma ensure_release_needs_name_witness :
  ensure_release [("name", VNone); ("type", VStr "Async")] false errata =
  {| out := Raise (KeyError (VStr "name")); remote := errata; calls := [] |}.
Proof.
  apply (ensure_release_needs_name (client := demo_client)).
  intros v H. simpl in H. destruct H as [H|[H|[]]].
  - now injection H.
  - discriminate H.
Defined.

(** Scenario A with and without check mode. *)
Lemma ensure_release_creates_witness :
  ensure_release scenario_a true empty_errata =
  {| out := Ok report_a;
     remote := empty_errata;
     calls := [releases_query (VStr "rhceph-4.0")] |} /\
  ensure_release scenario_a false empty_errata =
  {| out := Ok report_a;
     remote := empty_errata;
     calls := [releases_query (VStr "rhceph-4.0");
               Get "product_versions/RHCEPH-4.0-RHEL-8.json" [];
               Post "api/v1/releases" wire_a] |}.
Proof.
  exact (ensure_release_creates (client := demo_client)
           scenario_a empty_errata (VStr "rhceph-4.0") eq_refl eq_refl).
Defined.

Lemma ensure_release_update_needs_product_versions_witness :
  (exists report,
     out (ensure_release scenario_c_bare true errata) = Ok report /\
     changed report = true) /\
  ensure_release scenario_c_bare false errata =
  {| out := Raise (KeyError (VStr "product_versions"));
     remote := errata;
     calls := [releases_query (VStr "rhceph-4.0")] |}.
Proof.
  apply (ensure_release_update_needs_product_versions
           (client := demo_client) scenario_c_bare errata
           (VStr "rhceph-4.0") listed).
  - reflexivity.
  - reflexivity.
  - vm_compute. discriminate.
  - reflexivity.
Defined.

(** Scenario C applied, and previewed with the strict check off. *)
Lemma run_module_without_user_check_witness :
  run_module scenario_c false (Ok true) errata =
  {| out := exit_of (out (ensure_release scenario_c false errata));
     remote := remote (ensure_release scenario_c false errata);
     calls := calls (ensure_release scenario_c false errata) |} /\
  run_module scenario_c_managed true (Ok false) store =
  {| out := exit_of (out (ensure_release scenario_c_managed true store));
     remote := remote (ensure_release scenario_c_managed true store);
     calls := calls (ensure_release scenario_c_managed true store) |}.
Proof.
  split.
  - apply (run_module_without_user_check (client := demo_client)).
    now left.
  - apply (run_module_without_user_check (client := demo_client)).
    right. intros r _. right. exists (VStr "pm@redhat.com").
    split; [reflexivity | now right].
Defined.

(** Scenario D as a module run. *)
Lemma run_module_failure_changes_nothing_witness :
  (exists login,
     "program_manager ghost@redhat.com account not found" =
     account_not_found login) /\
  false = false /\ 1 = 1 /\
  remote (run_module scenario_d false (Ok false) errata) = errata /\
  writes (run_module scenario_d false (Ok false) errata) = [].
Proof.
  apply (run_module_failure_changes_nothing (client := demo_client)
           scenario_d (Ok false) errata).
  reflexivity.
Defined.

(** The strict check finds the known program manager and misses the
    unknown one. *)
Lemma run_module_strict_user_check_witness :
  run_module scenario_c_managed true (Ok true) store =
  {| out := Ok (exit_json report_managed);
     remote := store;
     calls := [releases_query (VStr "rhceph-4.0");
               Get "api/v1/user/pm@redhat.com" []] |} /\
  out (run_module scenario_d true (Ok true) errata) =
  Ok (fail_json "program_manager ghost@redhat.com account not found"
        false 1).
Proof.
  split.
  - exact (run_module_strict_user_check (client := demo_client)
             scenario_c_managed store report_managed
             (VStr "pm@redhat.com") eq_refl eq_refl eq_refl eq_refl).
  - destruct (out (ensure_release (client := demo_client)
                     scenario_d true errata)) as [r|e] eqn:E;
      [|vm_compute in E; discriminate E].
    rewrite (run_module_strict_user_check (client := demo_client)
               scenario_d errata r (VStr "ghost@redhat.com") E).
    + reflexivity.
    + vm_compute in E. now injection E as <-.
    + reflexivity.
    + reflexivity.
Defined.

Lemma preview_raises_no_user_error_witness :
  plain_error (KeyError (VStr "name")).
Proof.
  apply (preview_raises_no_user_error (client := demo_client) [] errata).
  reflexivity.
Defined.

(** A service without the releases endpoint, and one whose answer has a
    null [data]. *)
Lemma get_release_single_query_witness :
  out (get_release (VStr "rhceph-4.0") []) =
  Raise (HTTPError "api/v1/releases" 404) /\
  out (get_release (VStr "rhceph-4.0") blank) = Ok None.
Proof.
  split.
  - apply (proj1 (proj2 (proj2 (get_release_single_query
                                  (client := demo_client)
                                  (VStr "rhceph-4.0") [])))).
    reflexivity.
  - apply (proj2 (proj2 (proj2 (get_release_single_query
                                  (client := demo_client)
                                  (VStr "rhceph-4.0") blank))) VNone);
      reflexivity.
Defined.

Lemma desired_params_null_only_rule_set_witness :
  ("state_machine_rule_set" = "state_machine_rule_set" /\ VNone = VNone) \/
  (In ("state_machine_rule_set", VNone) unset_rule_set /\ VNone <> VNone).
Proof.
  apply (desired_params_null_only_rule_set unset_rule_set).
  vm_compute. member.
Defined.
